(** * consultar-io/api: the CNPJ and CPF example clients

    A shallow embedding of [src/python/cnpj.py] and [src/python/cpf.py].

    - [Py]: the Python values the scripts handle (decoded JSON), truthiness,
      subscripting, iteration, exceptions with their class hierarchy, and
      the output/exception monad in which the scripts run.
    - [Requests]: the part of the [requests] library the scripts call
      ([Response], [raise_for_status], [Response.json], its exceptions).
    - [Cnpj] and [Cpf]: the two scripts, function by function.

    Text is kept as byte strings holding the UTF-8 encoding of the Python
    [str]. *)

From Stdlib Require Import String Ascii List ZArith Bool Lia DecimalString.
From Stdlib Require Import Floats.SpecFloat.
Set Warnings "-register-all".
Import ListNotations.
Open Scope string_scope.
Open Scope Z_scope.

(** ** Python values, exceptions and effects *)
Module Py.

(** Values produced by [json.loads]: [None], [bool], [int], [float],
    [str], [list] and [dict].  A [dict] keeps its insertion order, so it is
    an association list; subscripting finds the entry of a key. *)
Inductive value : Type :=
| VNone
| VBool (b : bool)
| VInt (z : Z)
| VFloat (f : spec_float)
| VStr (s : string)
| VList (items : list value)
| VDict (entries : list (string * value)).

(** [bool(v)]: the truth value tested by [if] and [and]. *)
Definition truthy (v : value) : bool :=
  match v with
  | VNone => false
  | VBool b => b
  | VInt z => negb (z =? 0)
  | VFloat (S754_zero _) => false
  | VFloat _ => true
  | VStr EmptyString => false
  | VStr _ => true
  | VList [] => false
  | VList _ => true
  | VDict [] => false
  | VDict _ => true
  end.

Definition type_name (v : value) : string :=
  match v with
  | VNone => "NoneType"
  | VBool _ => "bool"
  | VInt _ => "int"
  | VFloat _ => "float"
  | VStr _ => "str"
  | VList _ => "list"
  | VDict _ => "dict"
  end.

(** The line feed written [\n] in the source. *)
Definition nl : string := String (ascii_of_nat 10) EmptyString.

(** Exception classes the scripts raise, catch or let through, with the
    bases they are declared with in CPython and in [requests.exceptions]. *)
Inductive exc_class : Type :=
| BaseException | Exception
| ValueError | TypeError | LookupError | KeyError
| NameError | UnboundLocalError | OSError
| RequestException | HTTPError | ConnectionError | Timeout
| InvalidJSONError | JSONDecodeError.

Definition exc_class_eqb (a b : exc_class) : bool :=
  match a, b with
  | BaseException, BaseException | Exception, Exception
  | ValueError, ValueError | TypeError, TypeError
  | LookupError, LookupError | KeyError, KeyError
  | NameError, NameError | UnboundLocalError, UnboundLocalError
  | OSError, OSError | RequestException, RequestException
  | HTTPError, HTTPError | ConnectionError, ConnectionError
  | Timeout, Timeout | InvalidJSONError, InvalidJSONError
  | JSONDecodeError, JSONDecodeError => true
  | _, _ => false
  end.

(** Direct bases.  [requests.exceptions.JSONDecodeError] derives from both
    [InvalidJSONError] and [json.JSONDecodeError], itself a [ValueError];
    [RequestException] derives from [IOError], an alias of [OSError]. *)
Definition bases (c : exc_class) : list exc_class :=
  match c with
  | BaseException => []
  | Exception => [BaseException]
  | ValueError | TypeError | LookupError | NameError | OSError => [Exception]
  | KeyError => [LookupError]
  | UnboundLocalError => [NameError]
  | RequestException => [OSError]
  | HTTPError | ConnectionError | Timeout | InvalidJSONError =>
      [RequestException]
  | JSONDecodeError => [InvalidJSONError; ValueError]
  end.

Fixpoint issubclass_upto (depth : nat) (c target : exc_class) : bool :=
  exc_class_eqb c target ||
  match depth with
  | O => false
  | S d => existsb (fun b => issubclass_upto d b target) (bases c)
  end.

(** The hierarchy above is five levels deep. *)
Definition issubclass : exc_class -> exc_class -> bool := issubclass_upto 5.

(** [str(n)] of an [int]. *)
Definition str_of_int (z : Z) : string := NilZero.string_of_int (Z.to_int z).

(** [repr(k)] of a key written in the source: every key the scripts
    subscript with is a literal of ASCII letters, digits and underscores,
    which [repr] only wraps in single quotes. *)
Definition repr_key (k : string) : string := "'" ++ k ++ "'".

(** Splitting a [str] into its characters: each byte that is not a UTF-8
    continuation byte (10xxxxxx) starts a character.  The first component
    holds continuation bytes still waiting for their leading byte. *)
Definition is_continuation (c : ascii) : bool :=
  match c with
  | Ascii _ _ _ _ _ _ false true => true
  | _ => false
  end.

Fixpoint chars_aux (s : string) : string * list string :=
  match s with
  | EmptyString => (EmptyString, [])
  | String c rest =>
      let (pending, done) := chars_aux rest in
      if is_continuation c then (String c pending, done)
      else (EmptyString, String c pending :: done)
  end.

Definition chars (s : string) : list string :=
  let (pending, done) := chars_aux s in
  match pending with
  | EmptyString => done
  | _ => pending :: done
  end.

Fixpoint lookup (k : string) (entries : list (string * value)) : option value :=
  match entries with
  | [] => None
  | (k', v) :: rest => if String.eqb k k' then Some v else lookup k rest
  end.

End Py.

(** ** The [requests] objects the scripts touch *)
Module Http.
Import Py.

(** What [requests.get] is called with. *)
Record Request : Type := mkRequest {
  endpoint : string;
  headers : list (string * string);
  params : list (string * value)
}.

(** A [requests.Response] as the scripts observe it: [status_code], the
    [reason] and [url] that [raise_for_status] quotes, the body [text], and
    what [json()] does on that body: the decoded value, or the decoder's
    message when the body is not well-formed JSON. *)
Record Response : Type := mkResponse {
  status_code : Z;
  reason : string;
  url : string;
  text : string;
  json : string + value
}.

End Http.

(** ** Exceptions and the monad of a run *)
Module Eff.
Import Py Http.

(** An exception instance: its class, [str(e)], the [response] attribute
    ([requests] sets it on an [HTTPError]) and [__cause__], set by
    [raise ... from e]. *)
Inductive exn : Type :=
| Exn (cls : exc_class) (msg : string) (response : option Response)
      (cause : option exn).

Definition exc_type (e : exn) : exc_class := let 'Exn c _ _ _ := e in c.
Definition exc_str (e : exn) : string := let 'Exn _ m _ _ := e in m.
Definition exc_response (e : exn) : option Response :=
  let 'Exn _ _ r _ := e in r.
Definition exc_cause (e : exn) : option exn := let 'Exn _ _ _ c := e in c.

Definition isinstance (e : exn) (c : exc_class) : bool :=
  issubclass (exc_type e) c.

(** How a call ends. *)
Inductive result (A : Type) : Type :=
| Return (a : A)
| Raise (e : exn).
Arguments Return {A} a.
Arguments Raise {A} e.

(** A computation: what it printed (one string per [print] call, without
    the line feed [print] appends), and how it ended. *)
Definition M (A : Type) : Type := list string * result A.

Definition ret {A} (a : A) : M A := ([], Return a).
Definition raise {A} (e : exn) : M A := ([], Raise e).
Definition print (s : string) : M unit := ([s], Return tt).

Definition bind {A B} (m : M A) (k : A -> M B) : M B :=
  match m with
  | (out, Raise e) => (out, Raise e)
  | (out, Return a) => let (out', r) := k a in ((out ++ out')%list, r)
  end.

Declare Scope py_scope.
Delimit Scope py_scope with py.
Notation "x <- m ;; k" := (bind m (fun x => k))
  (at level 61, m at next level, right associativity) : py_scope.
Notation "m ;; k" := (bind m (fun _ => k))
  (at level 61, right associativity) : py_scope.
Open Scope py_scope.

Definition stdout {A} (m : M A) : list string := fst m.
Definition outcome {A} (m : M A) : result A := snd m.

(** [try: body  except c1 as e: h1  except c2 as e: h2 ...]: the first
    clause whose class the exception is an instance of handles it; an
    exception no clause matches goes on. *)
Fixpoint dispatch {A} (handlers : list (exc_class * (exn -> M A))) (e : exn)
  : M A :=
  match handlers with
  | [] => raise e
  | (c, h) :: rest => if isinstance e c then h e else dispatch rest e
  end.

Definition try_except {A} (body : M A)
  (handlers : list (exc_class * (exn -> M A))) : M A :=
  match body with
  | (out, Return a) => (out, Return a)
  | (out, Raise e) => let (out', r) := dispatch handlers e in ((out ++ out')%list, r)
  end.

(** [v[k]] with a [str] key. *)
Definition getitem (v : value) (k : string) : M value :=
  match v with
  | VDict entries =>
      match lookup k entries with
      | Some x => ret x
      | None => raise (Exn KeyError (repr_key k) None None)
      end
  | VList _ =>
      raise (Exn TypeError
               "list indices must be integers or slices, not str" None None)
  | VStr _ =>
      raise (Exn TypeError
               "string indices must be integers, not 'str'" None None)
  | _ =>
      raise (Exn TypeError
               ("'" ++ type_name v ++ "' object is not subscriptable")
               None None)
  end.

(** The values a [for] loop draws from [v]. *)
Definition iter (v : value) : M (list value) :=
  match v with
  | VList items => ret items
  | VDict entries => ret (map (fun kv => VStr (fst kv)) entries)
  | VStr s => ret (map VStr (chars s))
  | _ =>
      raise (Exn TypeError
               ("'" ++ type_name v ++ "' object is not iterable") None None)
  end.

Fixpoint for_each {A} (items : list A) (body : A -> M unit) : M unit :=
  match items with
  | [] => ret tt
  | x :: rest => body x ;; for_each rest body
  end.

(** [x and y]: [y] is evaluated only when [x] is true. *)
Definition py_and (x y : M value) : M value :=
  a <- x ;; if truthy a then y else ret a.

(** [if cond: body], with no [else]. *)
Definition if_ (cond : M value) (body : M unit) : M unit :=
  c <- cond ;; if truthy c then body else ret tt.

Section Formatting.
(** [repr] of the values whose text depends on the shortest-digits float
    printer and on the Unicode tables; the scripts' fields are strings
    and integers. *)
Variable repr_other : value -> string.

(** What an f-string field [{v}] expands to: [format(v)] with an empty
    format specification. *)
Definition py_str (v : value) : string :=
  match v with
  | VNone => "None"
  | VBool true => "True"
  | VBool false => "False"
  | VInt z => str_of_int z
  | VStr s => s
  | VFloat _ | VList _ | VDict _ => repr_other v
  end.
End Formatting.

(** *** Calling a function

    A [def] with plain parameters, some with defaults, called with
    positional and keyword arguments.  [bound] counts the leading
    parameters a bound method has already received ([self]); CPython
    counts them in its messages. *)
Record signature : Type := mkSignature {
  qualname : string;
  bound : nat;
  parameters : list (string * option value)
}.

Definition str_of_nat (n : nat) : string := str_of_int (Z.of_nat n).

Definition quoted_names (names : list string) : string :=
  match names with
  | [] => ""
  | [a] => repr_key a
  | [a; b] => repr_key a ++ " and " ++ repr_key b
  | _ =>
      String.concat ", " (map repr_key (removelast names))
      ++ ", and " ++ repr_key (last names "")
  end.

Definition type_error (msg : string) : exn := Exn TypeError msg None None.

(** Positional arguments fill the leading slots, keyword arguments the
    slots left empty. *)
Fixpoint positional_slots (names : list string) (args : list value)
  : list (string * option value) :=
  match names, args with
  | [], _ => []
  | n :: names', [] => (n, None) :: positional_slots names' []
  | n :: names', a :: args' => (n, Some a) :: positional_slots names' args'
  end.

Inductive slot_update : Type :=
| Filled (slots : list (string * option value))
| Unexpected
| Multiple.

Fixpoint set_slot (k : string) (v : value)
  (slots : list (string * option value)) : slot_update :=
  match slots with
  | [] => Unexpected
  | (n, cur) :: rest =>
      if String.eqb k n then
        match cur with
        | Some _ => Multiple
        | None => Filled ((n, Some v) :: rest)
        end
      else
        match set_slot k v rest with
        | Filled rest' => Filled ((n, cur) :: rest')
        | other => other
        end
  end.

Fixpoint keyword_slots (fn : string) (kwargs : list (string * value))
  (slots : list (string * option value))
  : exn + list (string * option value) :=
  match kwargs with
  | [] => inr slots
  | (k, v) :: rest =>
      match set_slot k v slots with
      | Filled slots' => keyword_slots fn rest slots'
      | Multiple =>
          inl (type_error (fn ++ "() got multiple values for argument "
                              ++ repr_key k))
      | Unexpected =>
          inl (type_error (fn ++ "() got an unexpected keyword argument "
                              ++ repr_key k))
      end
  end.

Fixpoint default_slots (defaults : list (string * option value))
  (slots : list (string * option value))
  : list string * list (string * value) :=
  match defaults, slots with
  | (n, d) :: defaults', (_, s) :: slots' =>
      let (missing, filled) := default_slots defaults' slots' in
      match s, d with
      | Some v, _ => (missing, (n, v) :: filled)
      | None, Some v => (missing, (n, v) :: filled)
      | None, None => (n :: missing, filled)
      end
  | _, _ => ([], [])
  end.

Definition plural (n : nat) : string :=
  match n with 1%nat => "" | _ => "s" end.

Definition too_many_positional (sg : signature) (given : nat) : exn :=
  let fn := qualname sg in
  let most := (bound sg + length (parameters sg))%nat in
  let least :=
    (bound sg + length (filter (fun p => match snd p with
                                         | None => true
                                         | Some _ => false
                                         end) (parameters sg)))%nat in
  let takes :=
    if Nat.eqb least most
    then str_of_nat most ++ " positional argument" ++ plural most
    else "from " ++ str_of_nat least ++ " to " ++ str_of_nat most
         ++ " positional arguments" in
  type_error (fn ++ "() takes " ++ takes ++ " but "
                 ++ str_of_nat (bound sg + given)
                 ++ (if Nat.eqb (bound sg + given) 1 then " was" else " were")
                 ++ " given").

Definition bind_arguments (sg : signature) (args : list value)
  (kwargs : list (string * value)) : exn + list (string * value) :=
  let fn := qualname sg in
  let names := map fst (parameters sg) in
  match keyword_slots fn kwargs (positional_slots names args) with
  | inl e => inl e
  | inr slots =>
      if (length names <? length args)%nat
      then inl (too_many_positional sg (length args))
      else
        match default_slots (parameters sg) slots with
        | ([], filled) => inr filled
        | (missing, _) =>
            inl (type_error
                   (fn ++ "() missing " ++ str_of_nat (length missing)
                       ++ " required positional argument"
                       ++ plural (length missing) ++ ": "
                       ++ quoted_names missing))
        end
  end.

(** The argument bound to parameter [k]; binding gave every parameter
    one. *)
Definition argument (k : string) (bound_args : list (string * value)) : value :=
  match lookup k bound_args with
  | Some v => v
  | None => VNone
  end.

End Eff.

(** ** [requests]: what the library does for the scripts *)
Module Requests.
Import Py Http Eff.

(** [Response.raise_for_status]: an [HTTPError] for a 4xx or 5xx status,
    holding the response; nothing otherwise. *)
Definition http_error_msg (r : Response) : string :=
  if (400 <=? status_code r) && (status_code r <? 500) then
    str_of_int (status_code r) ++ " Client Error: " ++ reason r
    ++ " for url: " ++ url r
  else if (500 <=? status_code r) && (status_code r <? 600) then
    str_of_int (status_code r) ++ " Server Error: " ++ reason r
    ++ " for url: " ++ url r
  else "".

Definition raise_for_status (r : Response) : M unit :=
  match http_error_msg r with
  | EmptyString => ret tt
  | msg => raise (Exn HTTPError msg (Some r) None)
  end.

(** The [HTTPError] that [raise_for_status] builds for a 4xx or 5xx [r]. *)
Definition http_error (r : Response) : exn :=
  Exn HTTPError (http_error_msg r) (Some r) None.

(** [Response.json]: the decoded body, or [JSONDecodeError]. *)
Definition response_json (r : Response) : M value :=
  match json r with
  | inr v => ret v
  | inl msg => raise (Exn JSONDecodeError msg None None)
  end.

(** [requests.get(endpoint, headers=..., params=...)] answers with a
    response or raises (no connection, timeout, ...). *)
Definition transport : Type := Request -> exn + Response.

End Requests.

(** ** [cnpj.py] *)
Module Cnpj.
Import Py Http Eff Requests.

Record CNPJAPI : Type := mkCNPJAPI {
  api_token : string;
  base_url : string;
  self_headers : list (string * string)
}.

(** [CNPJAPI.__init__(self, api_token, base_url=...)]; [None] stands for
    a call that leaves [base_url] out. *)
Definition init (api_token : string) (base_url : option string) : CNPJAPI :=
  let base_url :=
    match base_url with
    | Some u => u
    | None => "https://consultar.io/api/v1"
    end in
  {| api_token := api_token;
     base_url := base_url;
     self_headers := [("Authorization", "Token " ++ api_token);
                      ("Content-Type", "application/json")] |}.

Section Script.
Variable requests_get : transport.
Variable repr_other : value -> string.

Definition request_of (self : CNPJAPI) (cnpj : value) : Request :=
  {| endpoint := base_url self ++ "/cnpj/consultar";
     headers := self_headers self;
     params := [("cnpj", cnpj)] |}.

(** The [except requests.exceptions.HTTPError as e] clause of
    [consultar].  [response] is the local variable of that name: it is
    unbound when [requests.get] itself raised. *)
Definition on_http_error (response : option Response) (e : exn) : M value :=
  match response with
  | None =>
      raise (Exn UnboundLocalError
               ("cannot access local variable 'response' where it is "
                ++ "not associated with a value") None None)
  | Some response =>
      if status_code response =? 404 then
        raise (Exn ValueError "CNPJ não encontrado" None (Some e))
      else if status_code response =? 403 then
        raise (Exn ValueError "Erro de autenticação ou plano inativo"
                 None (Some e))
      else if status_code response =? 400 then
        raise (Exn ValueError "Requisição inválida" None (Some e))
      else raise e
  end.

Definition consultar (self : CNPJAPI) (cnpj : value) : M value :=
  match requests_get (request_of self cnpj) with
  | inl e => try_except (raise e) [(HTTPError, on_http_error None)]
  | inr response =>
      try_except
        (raise_for_status response ;; response_json response)
        [(HTTPError, on_http_error (Some response))]
  end.

(** [print(f"<label>{d['<key>']}")] *)
Definition print_field (label : string) (d : value) (key : string) : M unit :=
  v <- getitem d key ;; print (label ++ py_str repr_other v).

(** [format_cnpj_info], block by block as the source lays it out. *)
Definition basic_info (resultado : value) : M unit :=
  print (nl ++ "Informações Básicas:") ;;
  print_field "CNPJ: " resultado "cnpj_formatado" ;;
  print_field "Razão Social: " resultado "razao_social" ;;
  print_field "Nome Fantasia: " resultado "nome_fantasia" ;;
  print_field "Natureza Jurídica: " resultado "natureza_juridica_descricao" ;;
  print_field "Capital Social: " resultado "capital_social_formatado" ;;
  print_field "Porte: " resultado "porte_empresa_descricao" ;;
  print_field "Matriz/Filial: " resultado "matriz_filial_descricao" ;;
  print_field "Situação Cadastral: " resultado "situacao_cadastral_descricao" ;;
  print_field "Data da Situação: " resultado "data_situacao_cadastral" ;;
  print_field "Motivo da Situação: " resultado
    "motivo_situacao_cadastral_descricao" ;;
  print_field "Data de Abertura: " resultado "data_inicio_atividades".

Definition address (resultado : value) : M unit :=
  print (nl ++ "Endereço:") ;;
  print_field "Tipo de Logradouro: " resultado "tipo_logradouro" ;;
  print_field "Logradouro: " resultado "logradouro" ;;
  print_field "Número: " resultado "numero" ;;
  print_field "Complemento: " resultado "complemento" ;;
  print_field "Bairro: " resultado "bairro" ;;
  print_field "Cidade: " resultado "municipio_descricao" ;;
  print_field "UF: " resultado "uf" ;;
  print_field "CEP: " resultado "cep".

(** [if d[area] and d[number]: print(area line); print(number line)] *)
Definition contact_pair (resultado : value)
  (area_label area number_label number : string) : M unit :=
  if_ (py_and (getitem resultado area) (getitem resultado number))
    (print_field area_label resultado area ;;
     print_field number_label resultado number).

Definition contact (resultado : value) : M unit :=
  print (nl ++ "Contato:") ;;
  contact_pair resultado "DDD: " "ddd1" "Telefone: " "telefone1" ;;
  contact_pair resultado "DDD 2: " "ddd2" "Telefone 2: " "telefone2" ;;
  contact_pair resultado "DDD Fax: " "ddd_fax" "Fax: " "fax" ;;
  print_field "Email: " resultado "email".

Definition primary_activity (resultado : value) : M unit :=
  print (nl ++ "Atividade Principal:") ;;
  print_field "Código CNAE: " resultado "cnae_principal_codigo" ;;
  print_field "Descrição CNAE: " resultado "cnae_principal_descricao".

Definition cnae_entry (cnae : value) : M unit :=
  print_field "Código: " cnae "codigo" ;;
  print_field "Descrição: " cnae "descricao".

Definition secondary_activities (resultado : value) : M unit :=
  if_ (getitem resultado "lista_cnae_secundarios")
    (print (nl ++ "Atividades Secundárias:") ;;
     lista <- getitem resultado "lista_cnae_secundarios" ;;
     items <- iter lista ;;
     for_each items cnae_entry).

Definition socio_entry (socio : value) : M unit :=
  print_field (nl ++ "Sócio: ") socio "nome_qsa" ;;
  print_field "Tipo: " socio "tipo_qsa_descricao" ;;
  print_field "CPF/CNPJ: " socio "cpf_cnpj_qsa_formatado" ;;
  print_field "Qualificação: " socio "qualificacao_qsa_descricao" ;;
  print_field "Data de Entrada: " socio "data_entrada_qsa" ;;
  if_ (getitem socio "faixa_etaria_qsa_descricao")
    (print_field "Faixa Etária: " socio "faixa_etaria_qsa_descricao").

Definition ownership (resultado : value) : M unit :=
  if_ (getitem resultado "lista_qsa")
    (print (nl ++ "Quadro Societário:") ;;
     lista <- getitem resultado "lista_qsa" ;;
     items <- iter lista ;;
     for_each items socio_entry).

Definition format_cnpj_info (resultado : value) : M unit :=
  basic_info resultado ;;
  address resultado ;;
  contact resultado ;;
  primary_activity resultado ;;
  secondary_activities resultado ;;
  ownership resultado.

Definition main : M unit :=
  let API_TOKEN := "seu-token-aqui" in
  let cnpj_api := init API_TOKEN None in
  let cnpj := VStr "42515236000100" in
  try_except
    (resultado <- consultar cnpj_api cnpj ;;
     format_cnpj_info resultado)
    [(ValueError, fun e => print ("Erro: " ++ exc_str e));
     (RequestException,
      fun e => print ("Erro na requisição: " ++ exc_str e))].

End Script.
End Cnpj.

(** ** [cpf.py] *)
Module Cpf.
Import Py Http Eff Requests.

Record CPFAPI : Type := mkCPFAPI {
  api_token : string;
  base_url : string;
  self_headers : list (string * string)
}.

Definition init (api_token : string) (base_url : option string) : CPFAPI :=
  let base_url :=
    match base_url with
    | Some u => u
    | None => "https://consultar.io/api/v1"
    end in
  {| api_token := api_token;
     base_url := base_url;
     self_headers := [("Authorization", "Token " ++ api_token);
                      ("Content-Type", "application/json")] |}.

(** [def consultar(self, cpf, data_nascimento)]: two parameters after
    [self], neither with a default. *)
Definition consultar_signature : signature :=
  {| qualname := "CPFAPI.consultar";
     bound := 1;
     parameters := [("cpf", None); ("data_nascimento", None)] |}.

Section Script.
Variable requests_get : transport.
Variable repr_other : value -> string.

Definition request_of (self : CPFAPI) (cpf data_nascimento : value)
  : Request :=
  {| endpoint := base_url self ++ "/cpf/consultar";
     headers := self_headers self;
     params := [("cpf", cpf); ("data_nascimento", data_nascimento)] |}.

Definition on_http_error (response : option Response) (e : exn) : M value :=
  match response with
  | None =>
      raise (Exn UnboundLocalError
               ("cannot access local variable 'response' where it is "
                ++ "not associated with a value") None None)
  | Some response =>
      if status_code response =? 404 then
        raise (Exn ValueError "CPF não encontrado" None (Some e))
      else if status_code response =? 403 then
        raise (Exn ValueError "Erro de autenticação ou plano inativo"
                 None (Some e))
      else if status_code response =? 400 then
        raise (Exn ValueError "Requisição inválida" None (Some e))
      else raise e
  end.

Definition consultar (self : CPFAPI) (cpf data_nascimento : value)
  : M value :=
  match requests_get (request_of self cpf data_nascimento) with
  | inl e => try_except (raise e) [(HTTPError, on_http_error None)]
  | inr response =>
      try_except
        (raise_for_status response ;; response_json response)
        [(HTTPError, on_http_error (Some response))]
  end.

(** A call of [self.consultar] with positional and keyword arguments: the
    arguments are bound to the parameters first, the body runs only if
    that succeeds. *)
Definition call_consultar (self : CPFAPI) (args : list value)
  (kwargs : list (string * value)) : M value :=
  match bind_arguments consultar_signature args kwargs with
  | inl e => raise e
  | inr bound_args =>
      consultar self (argument "cpf" bound_args)
        (argument "data_nascimento" bound_args)
  end.

Definition print_field (label : string) (d : value) (key : string) : M unit :=
  v <- getitem d key ;; print (label ++ py_str repr_other v).

Definition main : M unit :=
  let API_TOKEN := "seu-token-aqui" in
  let cpf_api := init API_TOKEN None in
  let cpf := VStr "87135740009" in
  let data_nascimento := VStr "1990-01-01" in
  try_except
    (resultado <- call_consultar cpf_api [cpf; data_nascimento] [] ;;
     print (nl ++ "Resultado da consulta CPF:") ;;
     print_field "CPF: " resultado "cpf" ;;
     print_field "Nome: " resultado "nome" ;;
     print_field "Data de Nascimento: " resultado "data_nascimento" ;;
     print_field "Situação: " resultado "situacao" ;;
     print_field "Data de Inscrição: " resultado "data_inscricao" ;;
     print_field "Dígito Verificador: " resultado "digito_verificador" ;;
     print_field "Código de Controle: " resultado "codigo_controle" ;;
     print_field "Data de Emissão: " resultado "data_emissao" ;;
     print_field "Hora de Emissão: " resultado "hora_emissao" ;;
     print_field "QR Code URL: " resultado "qrcode_url")
    [(ValueError, fun e => print ("Erro: " ++ exc_str e));
     (RequestException,
      fun e => print ("Erro na requisição: " ++ exc_str e))].

End Script.
End Cpf.

(** ** Sample data *)
Module Samples.
Import Py Http Eff Requests.

Definition no_repr (v : value) : string := "".

Definition response_with (status : Z) (why : string) (body : string)
  (decoded : string + value) : Response :=
  {| status_code := status;
     reason := why;
     url := "https://consultar.io/api/v1/cnpj/consultar?cnpj=42515236000100";
     text := body;
     json := decoded |}.

(** A transport that answers every request with the same response. *)
Definition always (r : Response) : transport := fun _ => inr r.

(** An organisation record with every field of [format_cnpj_info], the
    contact numbers, secondary activities and partners left to choose. *)
Definition company (contact_numbers : list (string * value))
  (cnaes socios : list value) : list (string * value) :=
    ([("cnpj_formatado", VStr "42.515.236/0001-00");
      ("razao_social", VStr "EMPRESA EXEMPLO LTDA");
      ("nome_fantasia", VStr "EXEMPLO");
      ("natureza_juridica_descricao", VStr "Sociedade Limitada");
      ("capital_social_formatado", VStr "R$ 10.000,00");
      ("porte_empresa_descricao", VStr "Microempresa");
      ("matriz_filial_descricao", VStr "Matriz");
      ("situacao_cadastral_descricao", VStr "Ativa");
      ("data_situacao_cadastral", VStr "2021-06-01");
      ("motivo_situacao_cadastral_descricao", VStr "Sem motivo");
      ("data_inicio_atividades", VStr "2021-06-01");
      ("tipo_logradouro", VStr "Rua");
      ("logradouro", VStr "das Flores");
      ("numero", VStr "100");
      ("complemento", VStr "");
      ("bairro", VStr "Centro");
      ("municipio_descricao", VStr "Campinas");
      ("uf", VStr "SP");
      ("cep", VStr "13000-000")]
     ++ contact_numbers
     ++ [("email", VStr "contato@exemplo.com.br");
         ("cnae_principal_codigo", VStr "6201501");
         ("cnae_principal_descricao", VStr "Desenvolvimento de programas");
         ("lista_cnae_secundarios", VList cnaes);
         ("lista_qsa", VList socios)])%list.

Definition no_numbers : list (string * value) :=
  [("ddd1", VStr ""); ("telefone1", VStr "");
   ("ddd2", VStr ""); ("telefone2", VStr "");
   ("ddd_fax", VStr ""); ("fax", VStr "")].

Definition one_phone : list (string * value) :=
  [("ddd1", VStr "19"); ("telefone1", VStr "32320000");
   ("ddd2", VStr ""); ("telefone2", VStr "");
   ("ddd_fax", VStr ""); ("fax", VStr "")].

(** No area code and no [telefone1] key at all. *)
Definition numbers_without_telefone1 : list (string * value) :=
  [("ddd1", VStr "");
   ("ddd2", VStr ""); ("telefone2", VStr "");
   ("ddd_fax", VStr ""); ("fax", VStr "")].

Definition cnae_sample : value :=
  VDict [("codigo", VStr "6202300");
         ("descricao", VStr "Desenvolvimento sob encomenda")].

Definition socio_fields : list (string * value) :=
  [("nome_qsa", VStr "MARIA DA SILVA");
   ("tipo_qsa_descricao", VStr "Pessoa Física");
   ("cpf_cnpj_qsa_formatado", VStr "***.123.456-**");
   ("qualificacao_qsa_descricao", VStr "Sócio-Administrador");
   ("data_entrada_qsa", VStr "2021-06-01")].

Definition socio_with_age_fields : list (string * value) :=
  (socio_fields ++ [("faixa_etaria_qsa_descricao", VStr "31 a 40 anos")])%list.

Definition socio_with_age : value := VDict socio_with_age_fields.

(** A partner record from which the age-bracket key is absent. *)
Definition socio_without_age_key : value := VDict socio_fields.

Definition decoder_message : string :=
  "Expecting value: line 1 column 1 (char 0)".

Definition not_found : Response :=
  response_with 404 "Not Found" "{}" (inr (VDict [])).
Definition forbidden : Response :=
  response_with 403 "Forbidden" "{}" (inr (VDict [])).
Definition bad_request : Response :=
  response_with 400 "Bad Request" "{}" (inr (VDict [])).
Definition unavailable : Response :=
  response_with 503 "Service Unavailable" "" (inl decoder_message).
Definition multiple_choices : Response :=
  response_with 300 "Multiple Choices" "{}" (inr (VDict [])).
Definition ok_empty_object : Response :=
  response_with 200 "OK" "{}" (inr (VDict [])).
Definition ok_not_json : Response :=
  response_with 200 "OK" "<html></html>" (inl decoder_message).

End Samples.

(** * The monad of a run: equations *)
Module EffFacts.
Import Py Http Eff.


Lemma bind_ret {A B} (a : A) (k : A -> M B) : bind (ret a) k = k a.
Proof. unfold bind, ret. destruct (k a); reflexivity. Qed.

Lemma bind_raise {A B} (e : exn) (k : A -> M B) : bind (raise e) k = raise e.
Proof. reflexivity. Qed.

Lemma bind_print {B} (s : string) (k : unit -> M B) :
  bind (print s) k = (s :: stdout (k tt), outcome (k tt)).
Proof. unfold bind, print. destruct (k tt); reflexivity. Qed.

Lemma bind_assoc {A B C} (m : M A) (f : A -> M B) (g : B -> M C) :
  bind (bind m f) g = bind m (fun a => bind (f a) g).
Proof.
  destruct m as [out [a | e]]; simpl; [| reflexivity].
  destruct (f a) as [out1 [b | e]]; simpl; [| reflexivity].
  destruct (g b) as [out2 r]. now rewrite app_assoc.
Qed.

Lemma bind_returns {A B} (m : M A) (k : A -> M B) (a : A) :
  outcome m = Return a ->
  bind m k = ((stdout m ++ stdout (k a))%list, outcome (k a)).
Proof.
  destruct m as [out r]; simpl; intros ->.
  destruct (k a); reflexivity.
Qed.

Lemma bind_raises {A B} (m : M A) (k : A -> M B) (e : exn) :
  outcome m = Raise e -> bind m k = (stdout m, Raise e).
Proof. destruct m as [out r]; simpl; intros ->. reflexivity. Qed.

Lemma stdout_bind_prefix {A B} (m : M A) (k : A -> M B) :
  exists rest, stdout (bind m k) = (stdout m ++ rest)%list.
Proof.
  destruct m as [out [a | e]]; simpl.
  - destruct (k a) as [out' r]. now exists out'.
  - exists []. now rewrite app_nil_r.
Qed.

Lemma stdout_getitem (v : value) (k : string) : stdout (getitem v k) = [].
Proof.
  destruct v; try reflexivity. simpl. destruct (lookup k entries); reflexivity.
Qed.

Lemma stdout_iter (v : value) : stdout (iter v) = [].
Proof. destruct v; reflexivity. Qed.

Section Quiet.
Context {P : string -> Prop}.

Lemma Forall_stdout_bind {A B} (m : M A) (k : A -> M B) :
  Forall P (stdout m) ->
  (forall a, Forall P (stdout (k a))) ->
  Forall P (stdout (bind m k)).
Proof.
  intros Hm Hk. destruct m as [out [a | e]]; simpl in *; [| exact Hm].
  specialize (Hk a). destruct (k a) as [out' r]; simpl in *.
  apply Forall_app; split; assumption.
Qed.

Lemma Forall_stdout_print (s : string) : P s -> Forall P (stdout (print s)).
Proof. intros Hs. simpl. constructor; [exact Hs | constructor]. Qed.

Lemma Forall_stdout_getitem (v : value) (k : string) :
  Forall P (stdout (getitem v k)).
Proof. rewrite stdout_getitem. constructor. Qed.

Lemma Forall_stdout_ret {A} (a : A) : Forall P (stdout (ret a)).
Proof. constructor. Qed.

Lemma Forall_stdout_py_and (x y : M value) :
  Forall P (stdout x) -> Forall P (stdout y) ->
  Forall P (stdout (py_and x y)).
Proof.
  intros Hx Hy. unfold py_and. apply Forall_stdout_bind; [exact Hx |].
  intros a. destruct (truthy a); [exact Hy | constructor].
Qed.

Lemma Forall_stdout_if (cond : M value) (body : M unit) :
  Forall P (stdout cond) -> Forall P (stdout body) ->
  Forall P (stdout (if_ cond body)).
Proof.
  intros Hc Hb. unfold if_. apply Forall_stdout_bind; [exact Hc |].
  intros c. destruct (truthy c); [exact Hb | constructor].
Qed.

Lemma Forall_stdout_for_each {A} (items : list A) (body : A -> M unit) :
  (forall x, Forall P (stdout (body x))) ->
  Forall P (stdout (for_each items body)).
Proof.
  intros Hb. induction items as [| x rest IH]; simpl.
  - constructor.
  - apply Forall_stdout_bind; [apply Hb | intros _; exact IH].
Qed.

Lemma Forall_stdout_loop (v : value) (body : value -> M unit) :
  (forall x, Forall P (stdout (body x))) ->
  Forall P (stdout (items <- iter v ;; for_each items body)).
Proof.
  intros Hb. apply Forall_stdout_bind.
  - rewrite stdout_iter. constructor.
  - intros items. apply Forall_stdout_for_each, Hb.
Qed.

End Quiet.

End EffFacts.

(** * Properties of the lookup clients *)
Module ClientProps.
Import Py Http Eff Requests.

Lemma http_error_msg_nonempty (r : Response) :
  400 <= status_code r < 600 -> http_error_msg r <> EmptyString.
Proof.
  intros Hs. unfold http_error_msg.
  destruct ((400 <=? status_code r) && (status_code r <? 500)) eqn:E4.
  - destruct (str_of_int (status_code r)); discriminate.
  - destruct ((500 <=? status_code r) && (status_code r <? 600)) eqn:E5.
    + destruct (str_of_int (status_code r)); discriminate.
    + exfalso.
      apply andb_false_iff in E4, E5.
      rewrite Z.leb_gt, Z.ltb_ge in E4, E5. lia.
Qed.

Lemma raise_for_status_error (r : Response) :
  400 <= status_code r < 600 -> raise_for_status r = raise (http_error r).
Proof.
  intros Hs. unfold raise_for_status, http_error.
  pose proof (http_error_msg_nonempty r Hs) as Hne.
  destruct (http_error_msg r); [contradiction | reflexivity].
Qed.

Lemma raise_for_status_quiet (r : Response) :
  status_code r < 400 \/ 600 <= status_code r -> raise_for_status r = ret tt.
Proof.
  intros Hs. unfold raise_for_status, http_error_msg.
  replace ((400 <=? status_code r) && (status_code r <? 500)) with false.
  - replace ((500 <=? status_code r) && (status_code r <? 600)) with false.
    + reflexivity.
    + symmetry. apply andb_false_iff. rewrite Z.leb_gt, Z.ltb_ge. lia.
  - symmetry. apply andb_false_iff. rewrite Z.leb_gt, Z.ltb_ge. lia.
Qed.

Lemma http_error_is_HTTPError (r : Response) :
  isinstance (http_error r) HTTPError = true.
Proof. reflexivity. Qed.

(** Both clients share the shape of [consultar]; [on_error] is the
    script's own [except] clause. *)
Lemma guarded_request_error (r : Response)
  (on_error : option Response -> exn -> M value) :
  400 <= status_code r < 600 ->
  try_except (raise_for_status r ;; response_json r)
    [(HTTPError, on_error (Some r))]
  = on_error (Some r) (http_error r).
Proof.
  intros Hs. rewrite (raise_for_status_error r Hs).
  unfold try_except, raise, bind. simpl.
  destruct (on_error (Some r) (http_error r)) as [out res]. reflexivity.
Qed.

Lemma guarded_request_quiet (r : Response)
  (on_error : option Response -> exn -> M value) :
  status_code r < 400 \/ 600 <= status_code r ->
  try_except (raise_for_status r ;; response_json r)
    [(HTTPError, on_error (Some r))]
  = match json r with
    | inr v => ret v
    | inl msg => raise (Exn JSONDecodeError msg None None)
    end.
Proof.
  intros Hs. rewrite (raise_for_status_quiet r Hs).
  unfold response_json. destruct (json r) as [msg | v]; reflexivity.
Qed.

Lemma cnpj_consultar_error_status (get : transport) (r : Response) self cnpj :
  get (Cnpj.request_of self cnpj) = inr r ->
  400 <= status_code r < 600 ->
  Cnpj.consultar get self cnpj = Cnpj.on_http_error (Some r) (http_error r).
Proof.
  intros Hget Hs. unfold Cnpj.consultar. rewrite Hget.
  apply guarded_request_error, Hs.
Qed.

Lemma cpf_consultar_error_status (get : transport) (r : Response) self cpf dn :
  get (Cpf.request_of self cpf dn) = inr r ->
  400 <= status_code r < 600 ->
  Cpf.consultar get self cpf dn = Cpf.on_http_error (Some r) (http_error r).
Proof.
  intros Hget Hs. unfold Cpf.consultar. rewrite Hget.
  apply guarded_request_error, Hs.
Qed.

(** The example token and identifier of [cnpj.py]'s [main]. *)
Lemma main_request :
  Cnpj.request_of (Cnpj.init "seu-token-aqui" None) (VStr "42515236000100")
  = {| endpoint := "https://consultar.io/api/v1/cnpj/consultar";
       headers := [("Authorization", "Token seu-token-aqui");
                   ("Content-Type", "application/json")];
       params := [("cnpj", VStr "42515236000100")] |}.
Proof. reflexivity. Qed.

(** C1. A response with status 404, 403 or 400 makes [consultar] raise the
    [ValueError] of that status and nothing else: 'CNPJ não encontrado' /
    'CPF não encontrado' for 404, 'Erro de autenticação ou plano inativo'
    for 403, 'Requisição inválida' for 400, each chained from the
    [HTTPError] of the response. *)
Theorem consultar_classified_errors (get : transport) (r : Response) :
  (forall self cnpj,
      get (Cnpj.request_of self cnpj) = inr r ->
      (status_code r = 404 ->
       Cnpj.consultar get self cnpj
       = raise (Exn ValueError "CNPJ não encontrado" None
                  (Some (http_error r))))
      /\ (status_code r = 403 ->
          Cnpj.consultar get self cnpj
          = raise (Exn ValueError "Erro de autenticação ou plano inativo"
                     None (Some (http_error r))))
      /\ (status_code r = 400 ->
          Cnpj.consultar get self cnpj
          = raise (Exn ValueError "Requisição inválida" None
                     (Some (http_error r)))))
  /\ (forall self cpf data_nascimento,
        get (Cpf.request_of self cpf data_nascimento) = inr r ->
        (status_code r = 404 ->
         Cpf.consultar get self cpf data_nascimento
         = raise (Exn ValueError "CPF não encontrado" None
                    (Some (http_error r))))
        /\ (status_code r = 403 ->
            Cpf.consultar get self cpf data_nascimento
            = raise (Exn ValueError "Erro de autenticação ou plano inativo"
                       None (Some (http_error r))))
        /\ (status_code r = 400 ->
            Cpf.consultar get self cpf data_nascimento
            = raise (Exn ValueError "Requisição inválida" None
                       (Some (http_error r))))).
Proof.
  split.
  - intros self cnpj Hget.
    repeat split; intros Hs;
      rewrite (cnpj_consultar_error_status get r self cnpj Hget) by lia;
      unfold Cnpj.on_http_error; rewrite Hs; reflexivity.
  - intros self cpf dn Hget.
    repeat split; intros Hs;
      rewrite (cpf_consultar_error_status get r self cpf dn Hget) by lia;
      unfold Cpf.on_http_error; rewrite Hs; reflexivity.
Qed.

Lemma consultar_classified_errors_witness :
  Cnpj.consultar (Samples.always Samples.forbidden)
    (Cnpj.init "seu-token-aqui" None) (VStr "42515236000100")
  = raise (Exn ValueError "Erro de autenticação ou plano inativo" None
             (Some (http_error Samples.forbidden)))
  /\ Cpf.consultar (Samples.always Samples.not_found)
       (Cpf.init "seu-token-aqui" None) (VStr "87135740009")
       (VStr "1990-01-01")
     = raise (Exn ValueError "CPF não encontrado" None
                (Some (http_error Samples.not_found))).
Proof.
  split.
  - apply (proj1 (consultar_classified_errors
                    (Samples.always Samples.forbidden) Samples.forbidden));
      reflexivity.
  - apply (proj2 (consultar_classified_errors
                    (Samples.always Samples.not_found) Samples.not_found));
      reflexivity.
Defined.

(** C2. A 2xx response whose body decodes makes [consultar] return the
    decoded value itself, with nothing raised and nothing printed. *)
Theorem consultar_returns_decoded_body (get : transport) (r : Response)
  (v : value) :
  200 <= status_code r < 300 ->
  json r = inr v ->
  (forall self cnpj,
      get (Cnpj.request_of self cnpj) = inr r ->
      Cnpj.consultar get self cnpj = ret v)
  /\ (forall self cpf data_nascimento,
        get (Cpf.request_of self cpf data_nascimento) = inr r ->
        Cpf.consultar get self cpf data_nascimento = ret v).
Proof.
  intros Hs Hjson. split.
  - intros self cnpj Hget. unfold Cnpj.consultar. rewrite Hget.
    rewrite guarded_request_quiet by lia. rewrite Hjson. reflexivity.
  - intros self cpf dn Hget. unfold Cpf.consultar. rewrite Hget.
    rewrite guarded_request_quiet by lia. rewrite Hjson. reflexivity.
Qed.

Lemma consultar_returns_decoded_body_witness :
  Cnpj.consultar (Samples.always Samples.ok_empty_object)
    (Cnpj.init "seu-token-aqui" None) (VStr "42515236000100")
  = ret (VDict []).
Proof.
  apply (proj1 (consultar_returns_decoded_body
                  (Samples.always Samples.ok_empty_object)
                  Samples.ok_empty_object (VDict [])
                  ltac:(simpl; lia) eq_refl)).
  reflexivity.
Defined.

(** C3, as stated, fails: a 300 response is neither 2xx nor one of the
    three classified statuses, yet [raise_for_status] stays quiet and
    [consultar] returns its decoded body. *)
Lemma consultar_status_300_returns_body :
  status_code Samples.multiple_choices = 300
  /\ Cnpj.consultar (Samples.always Samples.multiple_choices)
       (Cnpj.init "seu-token-aqui" None) (VStr "42515236000100")
     = ret (VDict []).
Proof. split; reflexivity. Qed.

(** C3, amended. For a 4xx or 5xx status other than 404, 403 and 400,
    [consultar] re-raises the [HTTPError] of [raise_for_status]: it holds
    the response (status and body), it is a [RequestException] and not a
    [ValueError]. *)
Theorem consultar_other_error_status (get : transport) (r : Response) :
  400 <= status_code r < 600 ->
  status_code r <> 404 -> status_code r <> 403 -> status_code r <> 400 ->
  (forall self cnpj,
      get (Cnpj.request_of self cnpj) = inr r ->
      Cnpj.consultar get self cnpj = raise (http_error r))
  /\ (forall self cpf data_nascimento,
        get (Cpf.request_of self cpf data_nascimento) = inr r ->
        Cpf.consultar get self cpf data_nascimento = raise (http_error r))
  /\ exc_response (http_error r) = Some r
  /\ isinstance (http_error r) RequestException = true
  /\ isinstance (http_error r) ValueError = false.
Proof.
  intros Hs H404 H403 H400.
  apply Z.eqb_neq in H404, H403, H400.
  repeat split.
  - intros self cnpj Hget.
    rewrite (cnpj_consultar_error_status get r self cnpj Hget Hs).
    unfold Cnpj.on_http_error. rewrite H404, H403, H400. reflexivity.
  - intros self cpf dn Hget.
    rewrite (cpf_consultar_error_status get r self cpf dn Hget Hs).
    unfold Cpf.on_http_error. rewrite H404, H403, H400. reflexivity.
Qed.

Lemma consultar_other_error_status_witness :
  Cnpj.consultar (Samples.always Samples.unavailable)
    (Cnpj.init "seu-token-aqui" None) (VStr "42515236000100")
  = raise (http_error Samples.unavailable).
Proof.
  apply (proj1 (consultar_other_error_status
                  (Samples.always Samples.unavailable) Samples.unavailable
                  ltac:(simpl; lia) ltac:(simpl; lia) ltac:(simpl; lia)
                  ltac:(simpl; lia))).
  reflexivity.
Defined.

(** C4. With the example identifier 42515236000100 answered by a 403,
    [main] prints the one line 'Erro: Erro de autenticação ou plano
    inativo' and ends. *)
Theorem main_forbidden_output (get : transport)
  (repr_other : value -> string) (r : Response) :
  get (Cnpj.request_of (Cnpj.init "seu-token-aqui" None)
         (VStr "42515236000100")) = inr r ->
  status_code r = 403 ->
  Cnpj.main get repr_other
  = (["Erro: Erro de autenticação ou plano inativo"], Return tt).
Proof.
  intros Hget Hs. unfold Cnpj.main.
  rewrite (cnpj_consultar_error_status get r _ _ Hget) by lia.
  unfold Cnpj.on_http_error. rewrite Hs. reflexivity.
Qed.

Lemma main_forbidden_output_witness :
  Cnpj.main (Samples.always Samples.forbidden) Samples.no_repr
  = (["Erro: Erro de autenticação ou plano inativo"], Return tt).
Proof.
  apply (main_forbidden_output (Samples.always Samples.forbidden)
           Samples.no_repr Samples.forbidden); reflexivity.
Defined.

(** C9, as stated, fails: a 200 response whose body is not JSON ends
    [main] with an 'Erro:' line, not with an uncaught exception. *)
Lemma main_malformed_json_prints_erro :
  json Samples.ok_not_json = inl Samples.decoder_message
  /\ Cnpj.main (Samples.always Samples.ok_not_json) Samples.no_repr
     = (["Erro: Expecting value: line 1 column 1 (char 0)"], Return tt).
Proof. split; reflexivity. Qed.

(** C9, amended. When a 2xx body is not well-formed JSON, [consultar]
    lets the decoder's [JSONDecodeError] through unchanged (its [except]
    clause takes [HTTPError] only); that class derives from [ValueError],
    so the first handler of [main] catches it and prints 'Erro: ' followed
    by the decoder's message, and [main] ends normally. *)
Theorem main_malformed_json (get : transport)
  (repr_other : value -> string) (r : Response) (msg : string) :
  get (Cnpj.request_of (Cnpj.init "seu-token-aqui" None)
         (VStr "42515236000100")) = inr r ->
  200 <= status_code r < 300 ->
  json r = inl msg ->
  Cnpj.consultar get (Cnpj.init "seu-token-aqui" None)
    (VStr "42515236000100")
  = raise (Exn JSONDecodeError msg None None)
  /\ isinstance (Exn JSONDecodeError msg None None) ValueError = true
  /\ Cnpj.main get repr_other = (["Erro: " ++ msg], Return tt).
Proof.
  intros Hget Hs Hjson.
  assert (Hc : Cnpj.consultar get (Cnpj.init "seu-token-aqui" None)
                 (VStr "42515236000100")
               = raise (Exn JSONDecodeError msg None None)).
  { unfold Cnpj.consultar. rewrite Hget.
    rewrite guarded_request_quiet by lia. rewrite Hjson. reflexivity. }
  repeat split.
  - exact Hc.
  - unfold Cnpj.main. rewrite Hc. reflexivity.
Qed.

Lemma main_malformed_json_witness :
  Cnpj.main (Samples.always Samples.ok_not_json) Samples.no_repr
  = (["Erro: " ++ Samples.decoder_message], Return tt).
Proof.
  apply (main_malformed_json (Samples.always Samples.ok_not_json)
           Samples.no_repr Samples.ok_not_json Samples.decoder_message
           eq_refl ltac:(simpl; lia) eq_refl).
Defined.

(** C7, as stated, fails: [consultar] called with the identifier alone
    raises [TypeError] while binding its arguments; no request is made. *)
Lemma consultar_without_birth_date_raises :
  Cpf.call_consultar (Samples.always Samples.ok_empty_object)
    (Cpf.init "seu-token-aqui" None) [VStr "87135740009"] []
  = raise (type_error
             ("CPFAPI.consultar() missing 1 required positional argument: "
              ++ "'data_nascimento'")).
Proof. reflexivity. Qed.

(** Keyword arguments that do not name 'data_nascimento' leave its slot
    empty, or fail. *)
Lemma keyword_slots_leave_birth_date fn kwargs :
  existsb (String.eqb "data_nascimento") (map fst kwargs) = false ->
  forall cpf_slot,
    match keyword_slots fn kwargs
            [("cpf", cpf_slot); ("data_nascimento", None)] with
    | inl e => exists msg, e = type_error msg
    | inr slots =>
        exists cpf_slot',
          slots = [("cpf", cpf_slot'); ("data_nascimento", None)]
    end.
Proof.
  induction kwargs as [| [k v] rest IH]; intros Hno cpf_slot.
  - simpl. now exists cpf_slot.
  - cbn [map fst existsb] in Hno.
    apply orb_false_iff in Hno. destruct Hno as [Hk Hrest].
    rewrite String.eqb_sym in Hk.
    cbn [keyword_slots set_slot].
    destruct (String.eqb k "cpf") eqn:Ecpf.
    + destruct cpf_slot as [given |].
      * eexists. reflexivity.
      * apply (IH Hrest).
    + rewrite Hk. eexists. reflexivity.
Qed.

(** C7, amended.  The birth date is a required parameter of
    [CPFAPI.consultar]: a call that gives it neither by position nor by
    keyword raises [TypeError] before any request is made; a call with
    the identifier and the birth date sends both as query parameters. *)
Theorem consultar_requires_birth_date (get : transport) (self : Cpf.CPFAPI) :
  (forall args kwargs,
      (length args < 2)%nat ->
      existsb (String.eqb "data_nascimento") (map fst kwargs) = false ->
      exists msg,
        Cpf.call_consultar get self args kwargs = raise (type_error msg))
  /\ (forall cpf data_nascimento,
        Cpf.call_consultar get self [cpf; data_nascimento] []
        = Cpf.consultar get self cpf data_nascimento
        /\ params (Cpf.request_of self cpf data_nascimento)
           = [("cpf", cpf); ("data_nascimento", data_nascimento)]).
Proof.
  split.
  - intros args kwargs Hlen Hkw. unfold Cpf.call_consultar, bind_arguments.
    assert (Hpos : exists cpf_slot,
               positional_slots
                 (map fst (parameters Cpf.consultar_signature)) args
               = [("cpf", cpf_slot); ("data_nascimento", None)]).
    { destruct args as [| a [| b more]].
      - now exists None.
      - now exists (Some a).
      - simpl in Hlen. lia. }
    destruct Hpos as [cpf_slot ->].
    pose proof (keyword_slots_leave_birth_date
                  (qualname Cpf.consultar_signature) kwargs Hkw cpf_slot)
      as Hslots.
    destruct (keyword_slots (qualname Cpf.consultar_signature) kwargs
                [("cpf", cpf_slot); ("data_nascimento", None)])
      as [e | slots].
    + destruct Hslots as [msg ->]. now exists msg.
    + destruct Hslots as [cpf_slot' ->].
      replace (length (map fst (parameters Cpf.consultar_signature))
                 <? length args)%nat
        with false by (symmetry; apply Nat.ltb_ge; simpl; lia).
      destruct cpf_slot'; eexists; reflexivity.
  - intros cpf dn. split; reflexivity.
Qed.

Lemma consultar_requires_birth_date_witness :
  exists msg,
    Cpf.call_consultar (Samples.always Samples.ok_empty_object)
      (Cpf.init "seu-token-aqui" None) [VStr "87135740009"] []
    = raise (type_error msg).
Proof.
  apply (proj1 (consultar_requires_birth_date
                  (Samples.always Samples.ok_empty_object)
                  (Cpf.init "seu-token-aqui" None))
           [VStr "87135740009"] []).
  - simpl. lia.
  - reflexivity.
Defined.

End ClientProps.

(** * Properties of [format_cnpj_info] *)
Module FormatterProps.
Import Py Http Eff Requests EffFacts Cnpj.

(** [s] is a line written by [print(f"<label>{...}")]. *)
Definition labelled (label s : string) : bool := prefix label s.

Definition contact_header : string := nl ++ "Contato:".
Definition secondary_header : string := nl ++ "Atividades Secundárias:".

(** The three guarded pairs of the contact block: area-code label and
    key, number label and key. *)
Definition contact_pairs : list (string * string * string * string) :=
  [("DDD: ", "ddd1", "Telefone: ", "telefone1");
   ("DDD 2: ", "ddd2", "Telefone 2: ", "telefone2");
   ("DDD Fax: ", "ddd_fax", "Fax: ", "fax")].

(** What runs before the contact block, and before the secondary
    activities. *)
Definition before_contact (repr_other : value -> string) (resultado : value)
  : M unit :=
  basic_info repr_other resultado ;; address repr_other resultado.

Definition before_secondary (repr_other : value -> string)
  (resultado : value) : M unit :=
  basic_info repr_other resultado ;;
  address repr_other resultado ;;
  contact repr_other resultado ;;
  primary_activity repr_other resultado.

Definition key_error (k : string) : exn := Exn KeyError (repr_key k) None None.

Definition age_bracket_key : string := "faixa_etaria_qsa_descricao".

(** The keys [format_cnpj_info] subscripts under no condition before its
    first loop, in the order it reads them.  The number keys 'telefone1',
    'telefone2' and 'fax' are not among them. *)
Definition unconditional_keys : list string :=
  ["cnpj_formatado"; "razao_social"; "nome_fantasia";
   "natureza_juridica_descricao"; "capital_social_formatado";
   "porte_empresa_descricao"; "matriz_filial_descricao";
   "situacao_cadastral_descricao"; "data_situacao_cadastral";
   "motivo_situacao_cadastral_descricao"; "data_inicio_atividades";
   "tipo_logradouro"; "logradouro"; "numero"; "complemento"; "bairro";
   "municipio_descricao"; "uf"; "cep";
   "ddd1"; "ddd2"; "ddd_fax"; "email";
   "cnae_principal_codigo"; "cnae_principal_descricao"].

(** A run over the mapping [d] that ends normally or with the [KeyError]
    of a key missing from [d]. *)
Definition key_safe (d : list (string * value)) (m : M unit) : Prop :=
  outcome m = Return tt
  \/ exists k, lookup k d = None /\ outcome m = Raise (key_error k).

(** Such a run that ends normally only if [d] has all of [keys]. *)
Definition reads (d : list (string * value)) (keys : list string)
  (m : M unit) : Prop :=
  key_safe d m
  /\ (outcome m = Return tt -> Forall (fun k => lookup k d <> None) keys).

(** The five lines every partner entry starts with. *)
Definition socio_lines (repr_other : value -> string)
  (nome tipo documento qualificacao entrada : value) : list string :=
  [nl ++ "Sócio: " ++ py_str repr_other nome;
   "Tipo: " ++ py_str repr_other tipo;
   "CPF/CNPJ: " ++ py_str repr_other documento;
   "Qualificação: " ++ py_str repr_other qualificacao;
   "Data de Entrada: " ++ py_str repr_other entrada].

(** [s] belongs to the secondary-activities section: its header, or a
    code or description line of an entry. *)
Definition secondary_line (s : string) : bool :=
  String.eqb secondary_header s
  || labelled "Código: " s || labelled "Descrição: " s.

Section Blocks.
Variable repr_other : value -> string.
Let str : value -> string := py_str repr_other.

Lemma print_field_present label d k v :
  lookup k d = Some v ->
  print_field repr_other label (VDict d) k = ([label ++ str v], Return tt).
Proof. intros H. unfold print_field. simpl. rewrite H. reflexivity. Qed.

Lemma print_field_missing label d k :
  lookup k d = None ->
  print_field repr_other label (VDict d) k = raise (key_error k).
Proof. intros H. unfold print_field. simpl. rewrite H. reflexivity. Qed.

(** The guarded pair, by cases on the two lookups. *)
Lemma contact_pair_cases d area_label area number_label number :
  contact_pair repr_other (VDict d) area_label area number_label number
  = match lookup area d with
    | None => raise (key_error area)
    | Some a =>
        if truthy a then
          match lookup number d with
          | None => raise (key_error number)
          | Some n =>
              if truthy n
              then ([area_label ++ str a; number_label ++ str n], Return tt)
              else ret tt
          end
        else ret tt
    end.
Proof.
  unfold contact_pair, if_, py_and, print_field, getitem.
  destruct (lookup area d) as [a |] eqn:Ea; [| reflexivity].
  rewrite bind_ret.
  destruct (truthy a) eqn:Ta.
  - destruct (lookup number d) as [n |] eqn:En; [| reflexivity].
    rewrite bind_ret.
    destruct (truthy n) eqn:Tn; reflexivity.
  - rewrite bind_ret, Ta. reflexivity.
Qed.

Lemma format_from_contact resultado :
  format_cnpj_info repr_other resultado
  = (before_contact repr_other resultado ;;
     contact repr_other resultado ;;
     primary_activity repr_other resultado ;;
     secondary_activities repr_other resultado ;;
     ownership repr_other resultado).
Proof. unfold format_cnpj_info, before_contact. now rewrite bind_assoc. Qed.

Lemma format_from_secondary resultado :
  format_cnpj_info repr_other resultado
  = (before_secondary repr_other resultado ;;
     secondary_activities repr_other resultado ;;
     ownership repr_other resultado).
Proof.
  unfold format_cnpj_info, before_secondary.
  now rewrite !bind_assoc.
Qed.

(** Lines a block can print, whatever its input. *)
Lemma Forall_stdout_raise {A} (P : string -> Prop) (e : exn) :
  Forall P (stdout (@raise A e)).
Proof. constructor. Qed.

Lemma Forall_stdout_print_field (P : string -> Prop) label resultado k :
  (forall x, P (label ++ x)) ->
  Forall P (stdout (print_field repr_other label resultado k)).
Proof.
  intros Hl. unfold print_field. apply Forall_stdout_bind.
  - apply Forall_stdout_getitem.
  - intros v. apply Forall_stdout_print, Hl.
Qed.

Lemma Forall_stdout_contact_pair (P : string -> Prop) resultado
  area_label area number_label number :
  (forall x, P (area_label ++ x)) ->
  (forall x, P (number_label ++ x)) ->
  Forall P (stdout (contact_pair repr_other resultado
                      area_label area number_label number)).
Proof.
  intros Ha Hn. unfold contact_pair. apply Forall_stdout_if.
  - apply Forall_stdout_py_and; apply Forall_stdout_getitem.
  - apply Forall_stdout_bind; [| intros _];
      apply Forall_stdout_print_field; assumption.
Qed.

End Blocks.

(** Every line of a run satisfies [P]: walk the statements; [label]
    settles [P] on a constant line or on [label ++ x]. *)
Ltac quiet label :=
  repeat first
    [ assumption
    | apply Forall_stdout_ret
    | apply Forall_stdout_raise
    | apply Forall_stdout_getitem
    | apply Forall_stdout_print; solve [label]
    | apply Forall_stdout_print_field; solve [label]
    | apply Forall_stdout_contact_pair; solve [label]
    | apply Forall_stdout_loop; intros ?
    | apply Forall_stdout_if
    | apply Forall_stdout_bind; [| intros ?]
    | progress unfold format_cnpj_info, before_contact, before_secondary,
        basic_info, address, contact, primary_activity,
        secondary_activities, ownership, cnae_entry, socio_entry ].

Ltac no_prefix := intros; first [reflexivity | split; reflexivity].

Section Contact.
Variable repr_other : value -> string.
Let str : value -> string := py_str repr_other.

Lemma contact_pair_silent d area_label area number_label number :
  (forall a n, lookup area d = Some a -> lookup number d = Some n ->
               truthy a = false \/ truthy n = false) ->
  stdout (contact_pair repr_other (VDict d)
            area_label area number_label number) = [].
Proof.
  intros H. rewrite contact_pair_cases.
  destruct (lookup area d) as [a |]; [| reflexivity].
  destruct (truthy a) eqn:Ta; [| reflexivity].
  destruct (lookup number d) as [n |]; [| reflexivity].
  destruct (truthy n) eqn:Tn; [| reflexivity].
  destruct (H a n eq_refl eq_refl); congruence.
Qed.

Lemma contact_pair_silent_unless d area_label area number_label number :
  (exists a n,
      lookup area d = Some a /\ lookup number d = Some n
      /\ truthy a = true /\ truthy n = true)
  \/ stdout (contact_pair repr_other (VDict d)
               area_label area number_label number) = [].
Proof.
  rewrite contact_pair_cases.
  destruct (lookup area d) as [a |]; [| now right].
  destruct (truthy a) eqn:Ta; [| now right].
  destruct (lookup number d) as [n |]; [| now right].
  destruct (truthy n) eqn:Tn; [| now right].
  left. exists a, n. auto.
Qed.

Lemma pair_lines_need_pair d area_label area number_label number :
  In (area_label, area, number_label, number) contact_pairs ->
  stdout (contact_pair repr_other (VDict d)
            area_label area number_label number) = [] ->
  Forall (fun s => labelled area_label s = false
                   /\ labelled number_label s = false)
    (stdout (format_cnpj_info repr_other (VDict d))).
Proof.
  intros Hin Hq.
  assert (Hp : Forall (fun s => labelled area_label s = false
                                /\ labelled number_label s = false)
                 (stdout (contact_pair repr_other (VDict d)
                            area_label area number_label number)))
    by (rewrite Hq; constructor).
  simpl in Hin.
  destruct Hin as [E | [E | [E | []]]]; inversion E; subst;
    quiet no_prefix.
Qed.

(** C5. In the output of [format_cnpj_info]: when the values of 'ddd1' and
    'telefone1' are both empty (false), no 'DDD: ' and no 'Telefone: ' line
    is printed; when both are non-empty and the contact block is reached,
    the 'DDD: ' line and then the 'Telefone: ' line follow the 'Contato:'
    header; and for each of the three pairs (phone 1, phone 2, fax) a line
    of the pair is printed only if both its area code and its number are
    present and true. *)
Theorem contact_lines_follow_truthiness (d : list (string * value)) :
  let out := stdout (format_cnpj_info repr_other (VDict d)) in
  (forall a n,
      lookup "ddd1" d = Some a -> lookup "telefone1" d = Some n ->
      truthy a = false -> truthy n = false ->
      Forall (fun s => labelled "DDD: " s = false
                       /\ labelled "Telefone: " s = false) out)
  /\ (forall a n,
        lookup "ddd1" d = Some a -> lookup "telefone1" d = Some n ->
        truthy a = true -> truthy n = true ->
        outcome (before_contact repr_other (VDict d)) = Return tt ->
        exists rest,
          out = (stdout (before_contact repr_other (VDict d))
                   ++ contact_header :: ("DDD: " ++ str a)%string
                        :: ("Telefone: " ++ str n)%string :: rest)%list)
  /\ (forall area_label area number_label number,
        In (area_label, area, number_label, number) contact_pairs ->
        Exists (fun s => labelled area_label s = true
                         \/ labelled number_label s = true) out ->
        exists a n,
          lookup area d = Some a /\ lookup number d = Some n
          /\ truthy a = true /\ truthy n = true).
Proof.
  intros out. split; [| split].
  - intros a n Ha Hn Ta Tn.
    apply (pair_lines_need_pair d "DDD: " "ddd1" "Telefone: " "telefone1").
    + left; reflexivity.
    + apply contact_pair_silent. intros a' n' Ha' Hn'.
      left. congruence.
  - intros a n Ha Hn Ta Tn Hreach. subst out.
    rewrite format_from_contact.
    rewrite (bind_returns _ _ tt Hreach). unfold stdout at 1. simpl fst.
    destruct (stdout_bind_prefix (contact repr_other (VDict d))
                (fun _ => primary_activity repr_other (VDict d) ;;
                          secondary_activities repr_other (VDict d) ;;
                          ownership repr_other (VDict d))) as [r1 E1].
    rewrite E1. unfold contact. rewrite bind_print.
    unfold stdout at 2. simpl fst.
    match goal with
    | |- context [stdout (bind ?m ?k)] =>
        destruct (stdout_bind_prefix m k) as [r2 E2]
    end.
    rewrite E2, contact_pair_cases, Ha, Ta, Hn, Tn.
    exists (r2 ++ r1)%list. reflexivity.
  - intros al a nl n Hin Hex.
    destruct (contact_pair_silent_unless d al a nl n) as [Hboth | Hq];
      [exact Hboth | exfalso].
    apply Exists_exists in Hex. destruct Hex as (s & Hs & Hl).
    pose proof (pair_lines_need_pair d al a nl n Hin Hq) as Hnone.
    rewrite Forall_forall in Hnone. destruct (Hnone s Hs).
    destruct Hl; congruence.
Qed.

End Contact.

Lemma contact_lines_follow_truthiness_witness :
  exists rest,
    stdout (format_cnpj_info Samples.no_repr
              (VDict (Samples.company Samples.one_phone [] [])))
    = (stdout (before_contact Samples.no_repr
                 (VDict (Samples.company Samples.one_phone [] [])))
         ++ contact_header :: "DDD: 19" :: "Telefone: 32320000" :: rest)%list.
Proof.
  apply (proj1 (proj2 (contact_lines_follow_truthiness Samples.no_repr
                         (Samples.company Samples.one_phone [] [])))
           (VStr "19") (VStr "32320000"));
    reflexivity.
Defined.

Ltac outside_secondary := intros; reflexivity.

Section Activities.
Variable repr_other : value -> string.
Let str : value -> string := py_str repr_other.

Lemma secondary_activities_cases d :
  secondary_activities repr_other (VDict d)
  = match lookup "lista_cnae_secundarios" d with
    | None => raise (key_error "lista_cnae_secundarios")
    | Some lista =>
        if truthy lista then
          print secondary_header ;;
          items <- iter lista ;;
          for_each items (cnae_entry repr_other)
        else ret tt
    end.
Proof.
  unfold secondary_activities, if_, getitem.
  destruct (lookup "lista_cnae_secundarios" d) as [lista |]; [| reflexivity].
  rewrite bind_ret. destruct (truthy lista); [| reflexivity].
  now rewrite bind_ret.
Qed.

Lemma cnae_entry_present e c ds :
  lookup "codigo" e = Some c -> lookup "descricao" e = Some ds ->
  cnae_entry repr_other (VDict e)
  = ([("Código: " ++ str c)%string; ("Descrição: " ++ str ds)%string],
     Return tt).
Proof.
  intros Hc Hd. unfold cnae_entry.
  rewrite (print_field_present _ _ _ _ _ Hc),
    (print_field_present _ _ _ _ _ Hd).
  reflexivity.
Qed.

Lemma before_secondary_outside d :
  Forall (fun s => secondary_line s = false)
    (stdout (before_secondary repr_other (VDict d))).
Proof. quiet outside_secondary. Qed.

Lemma ownership_outside d :
  Forall (fun s => secondary_line s = false)
    (stdout (ownership repr_other (VDict d))).
Proof. quiet outside_secondary. Qed.

(** C6. With an empty 'lista_cnae_secundarios' the header 'Atividades
    Secundárias:' is not printed.  With exactly one entry, a code and
    description pair, reached by the formatter, the header is printed and
    followed by that one 'Código: ' line and 'Descrição: ' line; no other
    line of the output is a header, code or description line of that
    section. *)
Theorem secondary_activities_section (d : list (string * value)) :
  let out := stdout (format_cnpj_info repr_other (VDict d)) in
  (lookup "lista_cnae_secundarios" d = Some (VList []) ->
   ~ In secondary_header out)
  /\ (forall e c ds,
        lookup "lista_cnae_secundarios" d = Some (VList [VDict e]) ->
        lookup "codigo" e = Some c -> lookup "descricao" e = Some ds ->
        outcome (before_secondary repr_other (VDict d)) = Return tt ->
        let before := stdout (before_secondary repr_other (VDict d)) in
        let after := stdout (ownership repr_other (VDict d)) in
        out = (before
                 ++ secondary_header :: ("Código: " ++ str c)%string
                      :: ("Descrição: " ++ str ds)%string :: after)%list
        /\ Forall (fun s => secondary_line s = false) before
        /\ Forall (fun s => secondary_line s = false) after).
Proof.
  intros out. split.
  - intros Hempty Hin.
    assert (Hq : Forall (fun s => String.eqb secondary_header s = false)
                   (stdout (secondary_activities repr_other (VDict d)))).
    { rewrite secondary_activities_cases, Hempty. constructor. }
    assert (Hall : Forall (fun s => String.eqb secondary_header s = false) out)
      by (subst out; quiet outside_secondary).
    rewrite Forall_forall in Hall. specialize (Hall _ Hin).
    now rewrite String.eqb_refl in Hall.
  - intros e c ds Hlist Hc Hd Hreach before after. repeat split.
    + subst out before after. rewrite format_from_secondary.
      rewrite (bind_returns _ _ tt Hreach). unfold stdout at 1. simpl fst.
      f_equal.
      rewrite secondary_activities_cases, Hlist. simpl truthy. cbv iota.
      rewrite bind_assoc, bind_print. unfold stdout at 1. simpl fst.
      f_equal. rewrite (cnae_entry_present e c ds Hc Hd).
      destruct (ownership repr_other (VDict d)) as [o r]. reflexivity.
    + apply before_secondary_outside.
    + apply ownership_outside.
Qed.

End Activities.

Lemma secondary_activities_section_witness :
  ~ In secondary_header
      (stdout (format_cnpj_info Samples.no_repr
                 (VDict (Samples.company Samples.no_numbers [] []))))
  /\ stdout (format_cnpj_info Samples.no_repr
               (VDict (Samples.company Samples.no_numbers
                         [Samples.cnae_sample] [])))
     = (stdout (before_secondary Samples.no_repr
                  (VDict (Samples.company Samples.no_numbers
                            [Samples.cnae_sample] [])))
          ++ [secondary_header; "Código: 6202300";
              "Descrição: Desenvolvimento sob encomenda"])%list.
Proof.
  split.
  - apply (proj1 (secondary_activities_section Samples.no_repr
                    (Samples.company Samples.no_numbers [] []))).
    reflexivity.
  - apply (proj2 (secondary_activities_section Samples.no_repr
                    (Samples.company Samples.no_numbers
                       [Samples.cnae_sample] []))
             _ (VStr "6202300") (VStr "Desenvolvimento sob encomenda")
             eq_refl eq_refl eq_refl eq_refl).
Defined.


Section Keys.
Variable repr_other : value -> string.
Variable d : list (string * value).

Lemma outcome_bind_returns {A B} (m : M A) (k : A -> M B) (a : A) :
  outcome m = Return a -> outcome (bind m k) = outcome (k a).
Proof. intros H. now rewrite (bind_returns m k a H). Qed.

Lemma outcome_bind_raises {A B} (m : M A) (k : A -> M B) (e : exn) :
  outcome m = Raise e -> outcome (bind m k) = Raise e.
Proof. intros H. now rewrite (bind_raises m k e H). Qed.

Lemma bind_returned {B} (m : M unit) (k : unit -> M B) (b : B) :
  outcome (bind m k) = Return b ->
  outcome m = Return tt /\ outcome (k tt) = Return b.
Proof.
  destruct m as [out [[] | e]]; simpl.
  - destruct (k tt) as [out' r]; simpl. auto.
  - discriminate.
Qed.

Lemma reads_print (s : string) : reads d [] (print s).
Proof. split; [now left | constructor]. Qed.

Lemma reads_print_field label k :
  reads d [k] (print_field repr_other label (VDict d) k).
Proof.
  destruct (lookup k d) as [v |] eqn:E.
  - rewrite (print_field_present _ _ _ _ _ E). split; [now left |].
    intros _. constructor; [congruence | constructor].
  - rewrite (print_field_missing _ _ _ _ E). split.
    + right. exists k. auto.
    + discriminate.
Qed.

Lemma reads_contact_pair area_label area number_label number :
  reads d [area]
    (contact_pair repr_other (VDict d) area_label area number_label number).
Proof.
  rewrite contact_pair_cases.
  destruct (lookup area d) as [a |] eqn:Ea.
  - split.
    + destruct (truthy a); [| now left].
      destruct (lookup number d) as [n |] eqn:En.
      * destruct (truthy n); now left.
      * right. exists number. auto.
    + intros _. constructor; [congruence | constructor].
  - split; [right; exists area; auto | discriminate].
Qed.

Lemma reads_bind keys1 keys2 (m1 m2 : M unit) :
  reads d keys1 m1 -> reads d keys2 m2 ->
  reads d (keys1 ++ keys2) (m1 ;; m2).
Proof.
  intros [S1 R1] [S2 R2]. split.
  - unfold key_safe in *. destruct S1 as [Ok1 | (k & Hk & E1)].
    + rewrite (outcome_bind_returns _ _ tt Ok1). exact S2.
    + right. exists k. split; [exact Hk |].
      now apply outcome_bind_raises.
  - intros Hok. apply bind_returned in Hok. destruct Hok as [Ok1 Ok2].
    apply Forall_app. auto.
Qed.

Lemma before_secondary_reads :
  reads d unconditional_keys (before_secondary repr_other (VDict d)).
Proof.
  unfold before_secondary, basic_info, address, contact, primary_activity.
  match goal with
  | |- reads _ _ ?m => eassert (H : reads d _ m)
  end.
  { repeat first
      [ eapply reads_bind
      | apply reads_print
      | apply reads_print_field
      | apply reads_contact_pair ]. }
  exact H.
Qed.

Lemma ends_with_bind (m1 m2 : M unit) (x : string) :
  outcome (m1 ;; m2) = Return tt ->
  (outcome m2 = Return tt -> exists before, stdout m2 = (before ++ [x])%list) ->
  exists before, stdout (m1 ;; m2) = (before ++ [x])%list.
Proof.
  intros Hok Hlast. apply bind_returned in Hok. destruct Hok as [Ok1 Ok2].
  destruct (Hlast Ok2) as [before Hb].
  exists (stdout m1 ++ before)%list.
  rewrite (bind_returns _ _ tt Ok1). unfold stdout at 1. simpl fst.
  now rewrite Hb, app_assoc.
Qed.

Lemma print_field_then_raises (e : list (string * value)) label k
  (rest : M unit) :
  (exists k', lookup k' e = None /\ outcome rest = Raise (key_error k')) ->
  exists k', lookup k' e = None
             /\ outcome (print_field repr_other label (VDict e) k ;; rest)
                = Raise (key_error k').
Proof.
  intros (k' & Hk' & Hrest).
  destruct (lookup k e) as [v |] eqn:E.
  - exists k'. split; [exact Hk' |].
    rewrite (print_field_present _ _ _ _ _ E).
    rewrite (outcome_bind_returns
               ([(label ++ py_str repr_other v)%string], Return tt)
               (fun _ => rest) tt eq_refl).
    exact Hrest.
  - exists k. split; [exact E |].
    now rewrite (print_field_missing _ _ _ _ E).
Qed.

Lemma socio_entry_needs_age_bracket (e : list (string * value)) :
  lookup age_bracket_key e = None ->
  exists k, lookup k e = None
            /\ outcome (socio_entry repr_other (VDict e))
               = Raise (key_error k).
Proof.
  intros Hage. unfold socio_entry.
  repeat apply print_field_then_raises.
  exists age_bracket_key. split; [exact Hage |].
  unfold if_, getitem. fold age_bracket_key. rewrite Hage. reflexivity.
Qed.

(** C10, as stated, fails: with an empty 'ddd1' the key 'telefone1' is
    never read, and a mapping without it is formatted to the end. *)
Lemma absent_telefone1_is_not_read :
  lookup "telefone1"
    (Samples.company Samples.numbers_without_telefone1 [] []) = None
  /\ outcome (format_cnpj_info Samples.no_repr
                (VDict (Samples.company Samples.numbers_without_telefone1
                          [] [])))
     = Return tt.
Proof. split; reflexivity. Qed.

(** C10, amended.  [format_cnpj_info] subscripts the mapping directly,
    so a key it reads must be present whatever its value:
    - a mapping lacking one of the keys read unconditionally (basic,
      address, 'ddd1', 'ddd2', 'ddd_fax', 'email', primary activity,
      'lista_cnae_secundarios') ends in the [KeyError] of a missing key;
      one lacking 'lista_qsa' never ends normally;
    - 'telefone1', 'telefone2' and 'fax' are read only when the area code
      of their pair is true: absent, they raise [KeyError] then, and are
      not missed when the area code is false;
    - a partner entry lacking 'faixa_etaria_qsa_descricao' ends in a
      [KeyError];
    - the 'Contato:' header opens the contact block and, when the block
      ends normally, the 'Email: ' line closes it, whatever the value. *)
Theorem formatter_key_requirements :
  (forall k,
      In k (unconditional_keys ++ ["lista_cnae_secundarios"]) ->
      lookup k d = None ->
      exists k', lookup k' d = None
                 /\ outcome (format_cnpj_info repr_other (VDict d))
                    = Raise (key_error k'))
  /\ (lookup "lista_qsa" d = None ->
      exists e, outcome (format_cnpj_info repr_other (VDict d)) = Raise e)
  /\ (forall area_label area number_label number a,
        In (area_label, area, number_label, number) contact_pairs ->
        lookup area d = Some a -> lookup number d = None ->
        contact_pair repr_other (VDict d)
          area_label area number_label number
        = if truthy a then raise (key_error number) else ret tt)
  /\ (forall e,
        lookup age_bracket_key e = None ->
        exists k, lookup k e = None
                  /\ outcome (socio_entry repr_other (VDict e))
                     = Raise (key_error k))
  /\ (exists rest,
        stdout (contact repr_other (VDict d)) = contact_header :: rest)
  /\ (outcome (contact repr_other (VDict d)) = Return tt ->
      exists v before,
        lookup "email" d = Some v
        /\ stdout (contact repr_other (VDict d))
           = (before ++ [("Email: " ++ py_str repr_other v)%string])%list).
Proof.
  destruct before_secondary_reads as [Hsafe Hkeys].
  repeat apply conj.
  - intros k Hin Hk. rewrite format_from_secondary.
    destruct Hsafe as [Hok | (k' & Hk' & Hraise)].
    + apply in_app_or in Hin. destruct Hin as [Hin | [<- | []]].
      * exfalso. specialize (Hkeys Hok). rewrite Forall_forall in Hkeys.
        exact (Hkeys k Hin Hk).
      * exists "lista_cnae_secundarios". split; [exact Hk |].
        rewrite (outcome_bind_returns _ _ tt Hok).
        apply outcome_bind_raises.
        unfold secondary_activities, if_, getitem. rewrite Hk. reflexivity.
    + exists k'. split; [exact Hk' |]. now apply outcome_bind_raises.
  - intros Hk. rewrite format_from_secondary.
    destruct Hsafe as [Hok | (k' & Hk' & Hraise)].
    + rewrite (outcome_bind_returns _ _ tt Hok).
      destruct (outcome (secondary_activities repr_other (VDict d)))
        as [[] | e] eqn:E.
      * rewrite (outcome_bind_returns _ _ tt E).
        unfold ownership, if_, getitem. rewrite Hk. eexists. reflexivity.
      * exists e. now apply outcome_bind_raises.
    + exists (key_error k'). now apply outcome_bind_raises.
  - intros al a nl n va _ Ha Hn.
    rewrite contact_pair_cases, Ha, Hn. reflexivity.
  - apply socio_entry_needs_age_bracket.
  - unfold contact. rewrite bind_print. eexists. reflexivity.
  - intros Hok. unfold contact in *.
    destruct (lookup "email" d) as [v |] eqn:Ev.
    + exists v.
      assert (Hlast : exists before,
                 stdout
                   (print (nl ++ "Contato:") ;;
                    contact_pair repr_other (VDict d)
                      "DDD: " "ddd1" "Telefone: " "telefone1" ;;
                    contact_pair repr_other (VDict d)
                      "DDD 2: " "ddd2" "Telefone 2: " "telefone2" ;;
                    contact_pair repr_other (VDict d)
                      "DDD Fax: " "ddd_fax" "Fax: " "fax" ;;
                    print_field repr_other "Email: " (VDict d) "email")
                 = (before ++ [("Email: " ++ py_str repr_other v)%string])%list).
      { repeat (apply ends_with_bind;
                [assumption
                | apply bind_returned in Hok; destruct Hok as [_ Hok];
                  intros _]).
        rewrite (print_field_present _ _ _ _ _ Ev). now exists []. }
      destruct Hlast as [before Hbefore]. exists before. split; auto.
    + exfalso.
      repeat (apply bind_returned in Hok; destruct Hok as [_ Hok]).
      rewrite (print_field_missing _ _ _ _ Ev) in Hok. discriminate.
Qed.

End Keys.

Lemma formatter_key_requirements_witness :
  (exists k',
      lookup k' [("cnpj_formatado", VStr "42.515.236/0001-00")] = None
      /\ outcome (format_cnpj_info Samples.no_repr
                    (VDict [("cnpj_formatado", VStr "42.515.236/0001-00")]))
         = Raise (key_error k'))
  /\ contact_pair Samples.no_repr
       (VDict (Samples.company Samples.numbers_without_telefone1 [] []))
       "DDD: " "ddd1" "Telefone: " "telefone1"
     = ret tt.
Proof.
  split.
  - apply (proj1 (formatter_key_requirements Samples.no_repr
                    [("cnpj_formatado", VStr "42.515.236/0001-00")])
             "razao_social").
    + simpl. tauto.
    + reflexivity.
  - apply (proj1 (proj2 (proj2
             (formatter_key_requirements Samples.no_repr
                (Samples.company Samples.numbers_without_telefone1 [] []))))
             "DDD: " "ddd1" "Telefone: " "telefone1" (VStr "")).
    + simpl. tauto.
    + reflexivity.
    + reflexivity.
Defined.

Section Ownership.
Variable repr_other : value -> string.
Let str : value -> string := py_str repr_other.

(** C8, as stated, fails: a partner entry without the key
    'faixa_etaria_qsa_descricao' stops [format_cnpj_info] with a
    [KeyError]. *)
Lemma absent_age_bracket_key_raises :
  lookup age_bracket_key Samples.socio_fields = None
  /\ outcome (format_cnpj_info Samples.no_repr
                (VDict (Samples.company Samples.no_numbers []
                          [Samples.socio_without_age_key])))
     = Raise (key_error "faixa_etaria_qsa_descricao").
Proof. split; reflexivity. Qed.

(** C8, amended. For a partner entry holding its five leading fields: if
    the age-bracket key is present, the entry is formatted without error
    and the 'Faixa Etária: ' line is printed exactly when the value is
    true (non-empty, non-null); if the key is absent, the five leading
    lines are printed and [KeyError] is raised. *)
Theorem socio_age_bracket_line (e : list (string * value))
  (nome tipo documento qualificacao entrada : value) :
  lookup "nome_qsa" e = Some nome ->
  lookup "tipo_qsa_descricao" e = Some tipo ->
  lookup "cpf_cnpj_qsa_formatado" e = Some documento ->
  lookup "qualificacao_qsa_descricao" e = Some qualificacao ->
  lookup "data_entrada_qsa" e = Some entrada ->
  let lines := socio_lines repr_other nome tipo documento qualificacao
                 entrada in
  (forall faixa,
      lookup age_bracket_key e = Some faixa ->
      socio_entry repr_other (VDict e)
      = ((lines ++ if truthy faixa
                   then [("Faixa Etária: " ++ str faixa)%string]
                   else [])%list,
         Return tt))
  /\ (lookup age_bracket_key e = None ->
      socio_entry repr_other (VDict e)
      = (lines, Raise (key_error age_bracket_key))).
Proof.
  intros Hn Ht Hdoc Hq Hd lines. unfold socio_entry.
  rewrite (print_field_present _ _ _ _ _ Hn),
    (print_field_present _ _ _ _ _ Ht),
    (print_field_present _ _ _ _ _ Hdoc),
    (print_field_present _ _ _ _ _ Hq),
    (print_field_present _ _ _ _ _ Hd).
  unfold if_, getitem, age_bracket_key. split.
  - intros faixa Hf. rewrite Hf, bind_ret.
    destruct (truthy faixa).
    + rewrite (print_field_present _ _ _ _ _ Hf). reflexivity.
    + reflexivity.
  - intros Hf. rewrite Hf. reflexivity.
Qed.

End Ownership.

Lemma socio_age_bracket_line_witness :
  socio_entry Samples.no_repr Samples.socio_with_age
  = ([nl ++ "Sócio: MARIA DA SILVA"; "Tipo: Pessoa Física";
      "CPF/CNPJ: ***.123.456-**"; "Qualificação: Sócio-Administrador";
      "Data de Entrada: 2021-06-01"; "Faixa Etária: 31 a 40 anos"],
     Return tt)
  /\ socio_entry Samples.no_repr Samples.socio_without_age_key
     = ([nl ++ "Sócio: MARIA DA SILVA"; "Tipo: Pessoa Física";
         "CPF/CNPJ: ***.123.456-**"; "Qualificação: Sócio-Administrador";
         "Data de Entrada: 2021-06-01"],
        Raise (key_error age_bracket_key)).
Proof.
  split.
  - apply (proj1 (socio_age_bracket_line Samples.no_repr
                    Samples.socio_with_age_fields _ _ _ _ _
                    eq_refl eq_refl eq_refl eq_refl eq_refl)
             (VStr "31 a 40 anos") eq_refl).
  - apply (proj2 (socio_age_bracket_line Samples.no_repr
                    Samples.socio_fields _ _ _ _ _
                    eq_refl eq_refl eq_refl eq_refl eq_refl) eq_refl).
Defined.

End FormatterProps.

(** * More on the lookup clients and the two [main]s *)
Module ClientMore.
Import Py Http Eff Requests EffFacts ClientProps.

(** The requests the two [main]s send. *)
Definition cnpj_main_request : Request :=
  Cnpj.request_of (Cnpj.init "seu-token-aqui" None) (VStr "42515236000100").

Definition cpf_main_request : Request :=
  Cpf.request_of (Cpf.init "seu-token-aqui" None)
    (VStr "87135740009") (VStr "1990-01-01").

(** A transport on which [requests.get] always raises [e]. *)
Definition failing (e : exn) : transport := fun _ => inl e.

Definition connection_refused : exn :=
  Exn ConnectionError "Connection refused" None None.

Lemma cnpj_consultar_transport_error (get : transport) (e : exn) self cnpj :
  get (Cnpj.request_of self cnpj) = inl e ->
  isinstance e HTTPError = false ->
  Cnpj.consultar get self cnpj = raise e.
Proof.
  intros Hget He. unfold Cnpj.consultar. rewrite Hget.
  unfold try_except, raise, dispatch. rewrite He. reflexivity.
Qed.

Lemma cpf_consultar_transport_error (get : transport) (e : exn) self cpf dn :
  get (Cpf.request_of self cpf dn) = inl e ->
  isinstance e HTTPError = false ->
  Cpf.consultar get self cpf dn = raise e.
Proof.
  intros Hget He. unfold Cpf.consultar. rewrite Hget.
  unfold try_except, raise, dispatch. rewrite He. reflexivity.
Qed.

(** [main] of [cpf.py] passes both arguments, so the call is the body. *)
Lemma cpf_main_call (get : transport) :
  Cpf.call_consultar get (Cpf.init "seu-token-aqui" None)
    [VStr "87135740009"; VStr "1990-01-01"] []
  = Cpf.consultar get (Cpf.init "seu-token-aqui" None)
      (VStr "87135740009") (VStr "1990-01-01").
Proof. reflexivity. Qed.

(** X1. When [requests.get] itself raises (no connection, timeout, ...)
    and the exception is not an [HTTPError], [consultar] lets that very
    exception through: it is neither wrapped nor replaced. *)
Theorem consultar_transport_error_unchanged (get : transport) (e : exn) :
  isinstance e HTTPError = false ->
  (forall self cnpj,
      get (Cnpj.request_of self cnpj) = inl e ->
      Cnpj.consultar get self cnpj = raise e)
  /\ (forall self cpf data_nascimento,
        get (Cpf.request_of self cpf data_nascimento) = inl e ->
        Cpf.consultar get self cpf data_nascimento = raise e).
Proof.
  intros He. split.
  - intros self cnpj Hget. now apply cnpj_consultar_transport_error.
  - intros self cpf dn Hget. now apply cpf_consultar_transport_error.
Qed.

Lemma consultar_transport_error_unchanged_witness :
  Cnpj.consultar (failing connection_refused)
    (Cnpj.init "seu-token-aqui" None) (VStr "42515236000100")
  = raise connection_refused.
Proof.
  apply (proj1 (consultar_transport_error_unchanged
                  (failing connection_refused) connection_refused eq_refl)).
  reflexivity.
Defined.

(** X2. When the request of [main] fails in transport with a
    [RequestException] (not an [HTTPError], not a [ValueError]), each
    [main] prints the single line 'Erro na requisição: ' followed by the
    exception's text, and ends normally. *)
Theorem main_transport_failure (get : transport)
  (repr_other : value -> string) (e : exn) :
  isinstance e HTTPError = false ->
  isinstance e ValueError = false ->
  isinstance e RequestException = true ->
  (get cnpj_main_request = inl e ->
   Cnpj.main get repr_other
   = (["Erro na requisição: " ++ exc_str e], Return tt))
  /\ (get cpf_main_request = inl e ->
      Cpf.main get repr_other
      = (["Erro na requisição: " ++ exc_str e], Return tt)).
Proof.
  intros Hhttp Hval Hreq. split; intros Hget.
  - unfold Cnpj.main.
    rewrite (cnpj_consultar_transport_error get e _ _ Hget Hhttp).
    unfold try_except, bind, raise, dispatch. rewrite Hval, Hreq. reflexivity.
  - unfold Cpf.main. rewrite cpf_main_call.
    rewrite (cpf_consultar_transport_error get e _ _ _ Hget Hhttp).
    unfold try_except, bind, raise, dispatch. rewrite Hval, Hreq. reflexivity.
Qed.

Lemma main_transport_failure_witness :
  Cnpj.main (failing connection_refused) Samples.no_repr
  = (["Erro na requisição: Connection refused"], Return tt)
  /\ Cpf.main (failing connection_refused) Samples.no_repr
     = (["Erro na requisição: Connection refused"], Return tt).
Proof.
  split.
  - apply (proj1 (main_transport_failure (failing connection_refused)
                    Samples.no_repr connection_refused
                    eq_refl eq_refl eq_refl)).
    reflexivity.
  - apply (proj2 (main_transport_failure (failing connection_refused)
                    Samples.no_repr connection_refused
                    eq_refl eq_refl eq_refl)).
    reflexivity.
Defined.

(** X3. A 4xx or 5xx answer other than 404, 403 and 400 ends each
    [main] with the single line 'Erro na requisição: ' followed by the
    text of the [HTTPError] ('<status> Client Error: <reason> for url:
    <url>', or 'Server Error'). *)
Theorem main_other_error_status (get : transport)
  (repr_other : value -> string) (r : Response) :
  400 <= status_code r < 600 ->
  status_code r <> 404 -> status_code r <> 403 -> status_code r <> 400 ->
  (get cnpj_main_request = inr r ->
   Cnpj.main get repr_other
   = (["Erro na requisição: " ++ http_error_msg r], Return tt))
  /\ (get cpf_main_request = inr r ->
      Cpf.main get repr_other
      = (["Erro na requisição: " ++ http_error_msg r], Return tt)).
Proof.
  intros Hs H404 H403 H400.
  apply Z.eqb_neq in H404, H403, H400.
  split; intros Hget.
  - unfold Cnpj.main.
    rewrite (cnpj_consultar_error_status get r _ _ Hget Hs).
    unfold Cnpj.on_http_error. rewrite H404, H403, H400. reflexivity.
  - unfold Cpf.main. rewrite cpf_main_call.
    rewrite (cpf_consultar_error_status get r _ _ _ Hget Hs).
    unfold Cpf.on_http_error. rewrite H404, H403, H400. reflexivity.
Qed.

Lemma main_other_error_status_witness :
  Cnpj.main (Samples.always Samples.unavailable) Samples.no_repr
  = (["Erro na requisição: 503 Server Error: Service Unavailable for url: "
      ++ url Samples.unavailable], Return tt).
Proof.
  apply (proj1 (main_other_error_status (Samples.always Samples.unavailable)
                  Samples.no_repr Samples.unavailable
                  ltac:(simpl; lia) ltac:(simpl; lia) ltac:(simpl; lia)
                  ltac:(simpl; lia))).
  reflexivity.
Defined.

(** X4. Each [main] turns a classified status into one 'Erro: ' line and
    ends normally: 404 gives 'Erro: CNPJ não encontrado' ('Erro: CPF não
    encontrado' in [cpf.py]), 403 'Erro: Erro de autenticação ou plano
    inativo', 400 'Erro: Requisição inválida'. *)
Theorem main_classified_status (get : transport)
  (repr_other : value -> string) (r : Response) :
  (get cnpj_main_request = inr r ->
   (status_code r = 404 ->
    Cnpj.main get repr_other = (["Erro: CNPJ não encontrado"], Return tt))
   /\ (status_code r = 403 ->
       Cnpj.main get repr_other
       = (["Erro: Erro de autenticação ou plano inativo"], Return tt))
   /\ (status_code r = 400 ->
       Cnpj.main get repr_other
       = (["Erro: Requisição inválida"], Return tt)))
  /\ (get cpf_main_request = inr r ->
      (status_code r = 404 ->
       Cpf.main get repr_other = (["Erro: CPF não encontrado"], Return tt))
      /\ (status_code r = 403 ->
          Cpf.main get repr_other
          = (["Erro: Erro de autenticação ou plano inativo"], Return tt))
      /\ (status_code r = 400 ->
          Cpf.main get repr_other
          = (["Erro: Requisição inválida"], Return tt))).
Proof.
  split; intros Hget.
  - repeat split; intros Hs; unfold Cnpj.main;
      rewrite (cnpj_consultar_error_status get r _ _ Hget) by lia;
      unfold Cnpj.on_http_error; rewrite Hs; reflexivity.
  - repeat split; intros Hs; unfold Cpf.main; rewrite cpf_main_call;
      rewrite (cpf_consultar_error_status get r _ _ _ Hget) by lia;
      unfold Cpf.on_http_error; rewrite Hs; reflexivity.
Qed.

Lemma main_classified_status_witness :
  Cpf.main (Samples.always Samples.not_found) Samples.no_repr
  = (["Erro: CPF não encontrado"], Return tt)
  /\ Cnpj.main (Samples.always Samples.bad_request) Samples.no_repr
     = (["Erro: Requisição inválida"], Return tt).
Proof.
  split.
  - apply (proj2 (main_classified_status (Samples.always Samples.not_found)
                    Samples.no_repr Samples.not_found));
      reflexivity.
  - apply (proj1 (main_classified_status (Samples.always Samples.bad_request)
                    Samples.no_repr Samples.bad_request));
      reflexivity.
Defined.

(** X5. If [requests.get] itself raises an [HTTPError], the [except]
    clause of [consultar] reads the local [response], which was never
    assigned: [consultar] raises [UnboundLocalError] instead of the
    transport's exception, and [main], whose handlers take [ValueError]
    and [RequestException] only, ends on it without printing a line. *)
Theorem http_error_from_get_unbound_response (get : transport)
  (repr_other : value -> string) (e : exn) :
  isinstance e HTTPError = true ->
  (forall self cnpj,
      get (Cnpj.request_of self cnpj) = inl e ->
      exists msg,
        Cnpj.consultar get self cnpj
        = raise (Exn UnboundLocalError msg None None))
  /\ (forall self cpf data_nascimento,
        get (Cpf.request_of self cpf data_nascimento) = inl e ->
        exists msg,
          Cpf.consultar get self cpf data_nascimento
          = raise (Exn UnboundLocalError msg None None))
  /\ (get cnpj_main_request = inl e ->
      exists msg,
        Cnpj.main get repr_other
        = ([], Raise (Exn UnboundLocalError msg None None))).
Proof.
  intros He. repeat split.
  - intros self cnpj Hget. unfold Cnpj.consultar. rewrite Hget.
    unfold try_except, raise, dispatch. rewrite He. eexists. reflexivity.
  - intros self cpf dn Hget. unfold Cpf.consultar. rewrite Hget.
    unfold try_except, raise, dispatch. rewrite He. eexists. reflexivity.
  - intros Hget. unfold Cnpj.main, Cnpj.consultar.
    fold cnpj_main_request. rewrite Hget.
    unfold try_except, raise, dispatch. rewrite He. eexists. reflexivity.
Qed.

Lemma http_error_from_get_unbound_response_witness :
  exists msg,
    Cnpj.main (failing (http_error Samples.unavailable)) Samples.no_repr
    = ([], Raise (Exn UnboundLocalError msg None None)).
Proof.
  apply (proj2 (proj2 (http_error_from_get_unbound_response
                         (failing (http_error Samples.unavailable))
                         Samples.no_repr (http_error Samples.unavailable)
                         eq_refl))).
  reflexivity.
Defined.

Lemma stdout_guarded_request (r : Response)
  (on_error : option Response -> exn -> M value) :
  (forall e, stdout (on_error (Some r) e) = []) ->
  stdout (try_except (raise_for_status r ;; response_json r)
            [(HTTPError, on_error (Some r))]) = [].
Proof.
  intros Hquiet. unfold raise_for_status.
  destruct (http_error_msg r) as [| c msg].
  - rewrite bind_ret. unfold response_json.
    destruct (json r) as [m | v]; reflexivity.
  - unfold try_except, bind, raise, dispatch.
    cbn [isinstance exc_type]. change (issubclass HTTPError HTTPError) with true.
    cbv iota.
    specialize (Hquiet (Exn HTTPError (String c msg) (Some r) None)).
    destruct (on_error (Some r) (Exn HTTPError (String c msg) (Some r) None))
      as [out res].
    simpl in *. now subst out.
Qed.

(** X16. [consultar] prints nothing: whatever the transport does (raise,
    or answer with any status and any body), the lookup leaves the output
    untouched; only [main] and the formatter write. *)
Theorem consultar_prints_nothing (get : transport) :
  (forall self cnpj, stdout (Cnpj.consultar get self cnpj) = [])
  /\ (forall self cpf data_nascimento,
        stdout (Cpf.consultar get self cpf data_nascimento) = []).
Proof.
  split.
  - intros self cnpj. unfold Cnpj.consultar.
    destruct (get (Cnpj.request_of self cnpj)) as [e | r].
    + unfold try_except, raise, dispatch, Cnpj.on_http_error.
      destruct (isinstance e HTTPError); reflexivity.
    + apply stdout_guarded_request. intros e. unfold Cnpj.on_http_error.
      destruct (status_code r =? 404); [reflexivity |].
      destruct (status_code r =? 403); [reflexivity |].
      destruct (status_code r =? 400); reflexivity.
  - intros self cpf dn. unfold Cpf.consultar.
    destruct (get (Cpf.request_of self cpf dn)) as [e | r].
    + unfold try_except, raise, dispatch, Cpf.on_http_error.
      destruct (isinstance e HTTPError); reflexivity.
    + apply stdout_guarded_request. intros e. unfold Cpf.on_http_error.
      destruct (status_code r =? 404); [reflexivity |].
      destruct (status_code r =? 403); [reflexivity |].
      destruct (status_code r =? 400); reflexivity.
Qed.

End ClientMore.

(** * More on [format_cnpj_info] and on what [main] does with it *)
Module FormatterMore.
Import Py Http Eff Requests EffFacts Cnpj FormatterProps.

(** Every exception a run can end with satisfies [P]. *)
Definition raises_only {A} (P : exn -> Prop) (m : M A) : Prop :=
  forall e, outcome m = Raise e -> P e.

(** The two classes a subscript or a loop over decoded JSON can raise. *)
Definition key_or_type_error (e : exn) : Prop :=
  exc_type e = KeyError \/ exc_type e = TypeError.

Section RaisesOnly.
Context {P : exn -> Prop}.


Lemma raises_only_print (s : string) : raises_only P (print s).
Proof. intros e He. discriminate. Qed.

Lemma raises_only_bind {A B} (m : M A) (k : A -> M B) :
  raises_only P m -> (forall a, raises_only P (k a)) ->
  raises_only P (bind m k).
Proof.
  intros Hm Hk e He. destruct m as [out [a | e0]]; simpl in *.
  - specialize (Hk a e). destruct (k a) as [out' r]; simpl in *. auto.
  - inversion He; subst. apply Hm. reflexivity.
Qed.




End RaisesOnly.

Lemma getitem_raises (v : value) (k : string) :
  raises_only key_or_type_error (getitem v k).
Proof.
  intros e He. destruct v; simpl in He;
    try (inversion He; subst; right; reflexivity).
  destruct (lookup k entries); simpl in He; [discriminate |].
  inversion He; subst. left; reflexivity.
Qed.


Section Formatter.
Variable repr_other : value -> string.

Lemma print_field_raises label v k :
  raises_only key_or_type_error (print_field repr_other label v k).
Proof.
  unfold print_field. apply raises_only_bind.
  - apply getitem_raises.
  - intros x. apply raises_only_print.
Qed.




Lemma uncaught_by_main (e : exn) :
  key_or_type_error e ->
  isinstance e ValueError = false /\ isinstance e RequestException = false.
Proof.
  unfold key_or_type_error, isinstance.
  destruct e as [cls msg resp cause]. simpl.
  intros [-> | ->]; split; reflexivity.
Qed.

(** The handlers of [main] let a [KeyError] or [TypeError] through. *)
Lemma main_handlers_pass (body : M unit) :
  raises_only key_or_type_error body ->
  try_except body
    [(ValueError, fun e => print ("Erro: " ++ exc_str e));
     (RequestException,
      fun e => print ("Erro na requisição: " ++ exc_str e))]
  = body.
Proof.
  intros Hbody. destruct body as [out [[] | e]]; [reflexivity |].
  destruct (uncaught_by_main e (Hbody e eq_refl)) as [Hv Hr].
  unfold try_except, dispatch, raise. rewrite Hv, Hr.
  now rewrite app_nil_r.
Qed.


(** X8. Given a decoded body that is not an object (a list, a string, a
    number, a boolean, null), [format_cnpj_info] prints its first header
    and raises [TypeError] on the first subscript. *)
Theorem format_cnpj_info_not_a_dict (resultado : value) :
  (forall d, resultado <> VDict d) ->
  exists msg,
    format_cnpj_info repr_other resultado
    = ([nl ++ "Informações Básicas:"], Raise (type_error msg)).
Proof.
  intros Hnot. destruct resultado;
    try (eexists; reflexivity).
  exfalso. exact (Hnot entries eq_refl).
Qed.

End Formatter.



Lemma format_cnpj_info_not_a_dict_witness :
  exists msg,
    format_cnpj_info Samples.no_repr (VList [])
    = ([nl ++ "Informações Básicas:"], Raise (type_error msg)).
Proof.
  apply (format_cnpj_info_not_a_dict Samples.no_repr (VList [])).
  intros d. discriminate.
Defined.

End FormatterMore.

(** * The output of [format_cnpj_info], line by line *)
Module FormatterOutput.
Import Py Http Eff Requests EffFacts Cnpj FormatterProps.

Section Lines.
Variable repr_other : value -> string.

(** The line of one field: [label] and the field's text. *)
Definition field_line (d : list (string * value)) (label k : string)
  : list string :=
  match lookup k d with
  | Some v => [label ++ py_str repr_other v]
  | None => []
  end.

(** The two lines of a contact pair, present when both values are true. *)
Definition pair_lines (d : list (string * value))
  (area_label area number_label number : string) : list string :=
  match lookup area d, lookup number d with
  | Some a, Some n =>
      if truthy a && truthy n
      then [area_label ++ py_str repr_other a;
            number_label ++ py_str repr_other n]
      else []
  | _, _ => []
  end.

Definition basic_lines (d : list (string * value)) : list string :=
  ((nl ++ "Informações Básicas:")%string
   :: field_line d "CNPJ: " "cnpj_formatado"
   ++ field_line d "Razão Social: " "razao_social"
   ++ field_line d "Nome Fantasia: " "nome_fantasia"
   ++ field_line d "Natureza Jurídica: " "natureza_juridica_descricao"
   ++ field_line d "Capital Social: " "capital_social_formatado"
   ++ field_line d "Porte: " "porte_empresa_descricao"
   ++ field_line d "Matriz/Filial: " "matriz_filial_descricao"
   ++ field_line d "Situação Cadastral: " "situacao_cadastral_descricao"
   ++ field_line d "Data da Situação: " "data_situacao_cadastral"
   ++ field_line d "Motivo da Situação: "
        "motivo_situacao_cadastral_descricao"
   ++ field_line d "Data de Abertura: " "data_inicio_atividades")%list.

Definition address_lines (d : list (string * value)) : list string :=
  ((nl ++ "Endereço:")%string
   :: field_line d "Tipo de Logradouro: " "tipo_logradouro"
   ++ field_line d "Logradouro: " "logradouro"
   ++ field_line d "Número: " "numero"
   ++ field_line d "Complemento: " "complemento"
   ++ field_line d "Bairro: " "bairro"
   ++ field_line d "Cidade: " "municipio_descricao"
   ++ field_line d "UF: " "uf"
   ++ field_line d "CEP: " "cep")%list.

Definition contact_lines (d : list (string * value)) : list string :=
  (contact_header
   :: pair_lines d "DDD: " "ddd1" "Telefone: " "telefone1"
   ++ pair_lines d "DDD 2: " "ddd2" "Telefone 2: " "telefone2"
   ++ pair_lines d "DDD Fax: " "ddd_fax" "Fax: " "fax"
   ++ field_line d "Email: " "email")%list.

Definition primary_lines (d : list (string * value)) : list string :=
  ((nl ++ "Atividade Principal:")%string
   :: field_line d "Código CNAE: " "cnae_principal_codigo"
   ++ field_line d "Descrição CNAE: " "cnae_principal_descricao")%list.

(** The two lines of a secondary activity. *)
Definition cnae_lines (cnae : value) : list string :=
  match cnae with
  | VDict e =>
      (field_line e "Código: " "codigo"
       ++ field_line e "Descrição: " "descricao")%list
  | _ => []
  end.

(** The block of a partner: a line that opens with a line feed, four
    more, and the age bracket when its value is true. *)
Definition socio_block (socio : value) : list string :=
  match socio with
  | VDict e =>
      (field_line e (nl ++ "Sócio: ") "nome_qsa"
       ++ field_line e "Tipo: " "tipo_qsa_descricao"
       ++ field_line e "CPF/CNPJ: " "cpf_cnpj_qsa_formatado"
       ++ field_line e "Qualificação: " "qualificacao_qsa_descricao"
       ++ field_line e "Data de Entrada: " "data_entrada_qsa"
       ++ match lookup age_bracket_key e with
          | Some v =>
              if truthy v
              then [("Faixa Etária: " ++ py_str repr_other v)%string]
              else []
          | None => []
          end)%list
  | _ => []
  end.

(** A repeated section: nothing for an empty list (or any false value),
    else the header and the block of every entry. *)
Definition list_section (header : string) (block : value -> list string)
  (lista : option value) : list string :=
  match lista with
  | Some (VList (first :: others)) =>
      header :: flat_map block (first :: others)
  | _ => []
  end.

Definition expected_output (d : list (string * value)) : list string :=
  (basic_lines d
   ++ address_lines d
   ++ contact_lines d
   ++ primary_lines d
   ++ list_section secondary_header cnae_lines
        (lookup "lista_cnae_secundarios" d)
   ++ list_section (nl ++ "Quadro Societário:") socio_block
        (lookup "lista_qsa" d))%list.

(** A run that, if it ends normally, has printed exactly [lines]. *)
Definition emits (m : M unit) (lines : list string) : Prop :=
  outcome m = Return tt -> stdout m = lines.

End Lines.

(** ** Mappings that have everything the formatter reads *)

Definition has_keys (keys : list string) (d : list (string * value)) : bool :=
  forallb (fun k => match lookup k d with
                    | Some _ => true
                    | None => false
                    end) keys.

Definition top_level_keys : list string :=
  (unconditional_keys
   ++ ["telefone1"; "telefone2"; "fax";
       "lista_cnae_secundarios"; "lista_qsa"])%list.

Definition cnae_keys : list string := ["codigo"; "descricao"].

Definition socio_keys : list string :=
  ["nome_qsa"; "tipo_qsa_descricao"; "cpf_cnpj_qsa_formatado";
   "qualificacao_qsa_descricao"; "data_entrada_qsa";
   "faixa_etaria_qsa_descricao"].



Lemma chars_nonempty (c : ascii) (s : string) : chars (String c s) <> [].
Proof.
  unfold chars. simpl. destruct (chars_aux s) as [pending done].
  destruct (is_continuation c); discriminate.
Qed.

Section Emits.
Variable repr_other : value -> string.

Lemma emits_print (s : string) : emits (print s) [s].
Proof. intros _. reflexivity. Qed.

Lemma emits_failed (m : M unit) (lines : list string) :
  outcome m <> Return tt -> emits m lines.
Proof. intros Hne Hok. contradiction. Qed.

Lemma emits_bind (m1 m2 : M unit) (l1 l2 : list string) :
  emits m1 l1 -> emits m2 l2 -> emits (m1 ;; m2) (l1 ++ l2)%list.
Proof.
  intros H1 H2 Hok. apply bind_returned in Hok. destruct Hok as [Ok1 Ok2].
  rewrite (bind_returns _ _ tt Ok1). unfold stdout at 1. simpl fst.
  now rewrite (H1 Ok1), (H2 Ok2).
Qed.

Lemma emits_print_field d label k :
  emits (print_field repr_other label (VDict d) k)
    (field_line repr_other d label k).
Proof.
  unfold field_line. destruct (lookup k d) as [v |] eqn:E.
  - rewrite (print_field_present _ _ _ _ _ E). intros _. reflexivity.
  - rewrite (print_field_missing _ _ _ _ E). intros H. discriminate.
Qed.

Lemma emits_contact_pair d area_label area number_label number :
  emits (contact_pair repr_other (VDict d)
           area_label area number_label number)
    (pair_lines repr_other d area_label area number_label number).
Proof.
  rewrite contact_pair_cases. unfold pair_lines.
  destruct (lookup area d) as [a |]; [| intros H; discriminate].
  destruct (truthy a).
  - destruct (lookup number d) as [n |]; [| intros H; discriminate].
    destruct (truthy n); intros _; reflexivity.
  - intros _. destruct (lookup number d); reflexivity.
Qed.

Lemma emits_for_each (body : value -> M unit) (block : value -> list string)
  (items : list value) :
  (forall x, emits (body x) (block x)) ->
  emits (for_each items body) (flat_map block items).
Proof.
  intros Hb. induction items as [| x rest IH]; simpl.
  - intros _. reflexivity.
  - apply emits_bind; [apply Hb | exact IH].
Qed.

(** The shape shared by the two repeated sections of the source:
    [if d[key]: print(header); for x in d[key]: body(x)]. *)
Lemma emits_section d header key (body : value -> M unit)
  (block : value -> list string) :
  (forall x, emits (body x) (block x)) ->
  (forall s, outcome (body (VStr s)) <> Return tt) ->
  emits
    (if_ (getitem (VDict d) key)
       (print header ;;
        lista <- getitem (VDict d) key ;;
        items <- iter lista ;;
        for_each items body))
    (list_section header block (lookup key d)).
Proof.
  intros Hb Hstr.
  destruct (lookup key d) as [lista |] eqn:E.
  2:{ apply emits_failed. unfold if_, getitem. rewrite E. discriminate. }
  assert (Hget : getitem (VDict d) key = ret lista)
    by (unfold getitem; now rewrite E).
  unfold if_. rewrite Hget, bind_ret.
  destruct (truthy lista) eqn:T.
  2:{ intros _. unfold list_section.
      destruct lista as [| b | z | f | s | items | entries]; try reflexivity.
      destruct items; [reflexivity | discriminate T]. }
  assert (Hfails :
            outcome (items <- iter lista ;; for_each items body) <> Return tt ->
            forall lines,
              emits (print header ;;
                     lista <- ret lista ;;
                     items <- iter lista ;;
                     for_each items body) lines).
  { intros Hne lines. apply emits_failed. intros Hok.
    apply bind_returned in Hok. destruct Hok as [_ Hok].
    rewrite bind_ret in Hok. contradiction. }
  destruct lista as [| b | z | f | s | items | entries];
    try discriminate T;
    try (apply Hfails; discriminate).
  - destruct s as [| c s]; [discriminate T |].
    apply Hfails. cbn [iter]. rewrite bind_ret.
    pose proof (chars_nonempty c s) as Hne.
    destruct (chars (String c s)) as [| c0 cs]; [contradiction |].
    cbn [map for_each]. intros Hok. apply bind_returned in Hok.
    exact (Hstr c0 (proj1 Hok)).
  - destruct items as [| first others]; [discriminate T |].
    apply (emits_bind (print header) _ [header]
             (flat_map block (first :: others)) (emits_print header)).
    rewrite bind_ret. cbn [iter]. rewrite bind_ret.
    apply emits_for_each, Hb.
  - destruct entries as [| [k0 v0] more]; [discriminate T |].
    apply Hfails. cbn [iter]. rewrite bind_ret.
    cbn [map for_each fst]. intros Hok. apply bind_returned in Hok.
    exact (Hstr k0 (proj1 Hok)).
Qed.

Lemma emits_cnae_entry (cnae : value) :
  emits (cnae_entry repr_other cnae) (cnae_lines repr_other cnae).
Proof.
  destruct cnae as [| b | z | f | s | items | e];
    try (apply emits_failed; discriminate).
  unfold cnae_entry, cnae_lines.
  apply emits_bind; apply emits_print_field.
Qed.

Lemma emits_socio_entry (socio : value) :
  emits (socio_entry repr_other socio) (socio_block repr_other socio).
Proof.
  destruct socio as [| b | z | f | s | items | e];
    try (apply emits_failed; discriminate).
  unfold socio_entry, socio_block.
  repeat (apply emits_bind; [apply emits_print_field |]).
  unfold if_, getitem, age_bracket_key.
  destruct (lookup "faixa_etaria_qsa_descricao" e) as [v |] eqn:E;
    [| apply emits_failed; discriminate].
  rewrite bind_ret. destruct (truthy v).
  - rewrite (print_field_present _ _ _ _ _ E). intros _. reflexivity.
  - intros _. reflexivity.
Qed.

Lemma emits_secondary_activities d :
  emits (secondary_activities repr_other (VDict d))
    (list_section secondary_header (cnae_lines repr_other)
       (lookup "lista_cnae_secundarios" d)).
Proof.
  apply (emits_section d secondary_header "lista_cnae_secundarios"
           (cnae_entry repr_other) (cnae_lines repr_other)).
  - apply emits_cnae_entry.
  - intros s. discriminate.
Qed.

Lemma emits_ownership d :
  emits (ownership repr_other (VDict d))
    (list_section (nl ++ "Quadro Societário:") (socio_block repr_other)
       (lookup "lista_qsa" d)).
Proof.
  apply (emits_section d (nl ++ "Quadro Societário:") "lista_qsa"
           (socio_entry repr_other) (socio_block repr_other)).
  - apply emits_socio_entry.
  - intros s. discriminate.
Qed.

Lemma format_cnpj_info_emits (d : list (string * value)) :
  emits (format_cnpj_info repr_other (VDict d))
    (expected_output repr_other d).
Proof.
  unfold format_cnpj_info, basic_info, address, contact, primary_activity.
  match goal with
  | |- emits ?m _ => eassert (H : emits m _)
  end.
  { repeat first
      [ apply emits_secondary_activities
      | apply emits_ownership
      | apply emits_print
      | apply emits_print_field
      | apply emits_contact_pair
      | eapply emits_bind ]. }
  exact H.
Qed.

(** X9. Whenever [format_cnpj_info] runs to its end on a mapping, what it
    has printed is exactly: the basic block, the address block, the
    contact block (header, each pair whose two values are true, the
    e-mail), the primary activity, then the secondary activities and the
    partners, each a header and one block per entry, or nothing for an
    empty list; always in this order, one line per field. *)
Theorem format_cnpj_info_output (d : list (string * value)) :
  outcome (format_cnpj_info repr_other (VDict d)) = Return tt ->
  stdout (format_cnpj_info repr_other (VDict d))
  = expected_output repr_other d.
Proof.
  intros Hok. pose proof (format_cnpj_info_emits d) as Hemits.
  unfold emits in Hemits. exact (Hemits Hok).
Qed.

End Emits.

Lemma format_cnpj_info_output_witness :
  stdout (format_cnpj_info Samples.no_repr
            (VDict (Samples.company Samples.one_phone
                      [Samples.cnae_sample] [Samples.socio_with_age])))
  = expected_output Samples.no_repr
      (Samples.company Samples.one_phone
         [Samples.cnae_sample] [Samples.socio_with_age]).
Proof.
  apply (format_cnpj_info_output Samples.no_repr). reflexivity.
Defined.

Section Returns.
Variable repr_other : value -> string.

Lemma has_keys_lookup keys d k :
  has_keys keys d = true ->
  existsb (String.eqb k) keys = true ->
  exists v, lookup k d = Some v.
Proof.
  intros Hall Hin. unfold has_keys in Hall.
  rewrite forallb_forall in Hall. apply existsb_exists in Hin.
  destruct Hin as (k' & Hk' & Heq). apply String.eqb_eq in Heq. subst k'.
  specialize (Hall k Hk'). destruct (lookup k d) as [v |]; [| discriminate].
  now exists v.
Qed.

Lemma returns_bind (m1 m2 : M unit) :
  outcome m1 = Return tt -> outcome m2 = Return tt ->
  outcome (m1 ;; m2) = Return tt.
Proof. intros H1 H2. now rewrite (bind_returns _ _ tt H1). Qed.

Lemma returns_print_field d label k :
  (exists v, lookup k d = Some v) ->
  outcome (print_field repr_other label (VDict d) k) = Return tt.
Proof.
  intros [v Hv]. now rewrite (print_field_present _ _ _ _ _ Hv).
Qed.




Lemma returns_cnae_entry e :
  has_keys cnae_keys e = true ->
  outcome (cnae_entry repr_other (VDict e)) = Return tt.
Proof.
  intros He. unfold cnae_entry.
  apply returns_bind; apply returns_print_field;
    apply (has_keys_lookup cnae_keys e _ He); reflexivity.
Qed.

Lemma returns_socio_entry e :
  has_keys socio_keys e = true ->
  outcome (socio_entry repr_other (VDict e)) = Return tt.
Proof.
  intros He. unfold socio_entry.
  repeat first
    [ apply returns_bind
    | apply returns_print_field;
      apply (has_keys_lookup socio_keys e _ He); reflexivity ].
  destruct (has_keys_lookup socio_keys e "faixa_etaria_qsa_descricao"
              He eq_refl) as [v Hv].
  unfold if_, getitem. rewrite Hv, bind_ret.
  destruct (truthy v); [| reflexivity].
  apply returns_print_field. now exists v.
Qed.




End Returns.




(** A list value all of whose entries are objects with [keys]. *)
Definition all_have (keys : list string) (items : list value) : bool :=
  forallb (fun x => match x with
                    | VDict e => has_keys keys e
                    | _ => false
                    end) items.

Section Loops.
Variable repr_other : value -> string.

(** A loop whose leading entries succeed and whose next entry fails. *)
Lemma for_each_stops (body : value -> M unit) (block : value -> list string)
  (keys : list string) (good : list value) (bad : value)
  (rest : list value) (e : exn) :
  (forall x, emits (body x) (block x)) ->
  (forall x, has_keys keys x = true -> outcome (body (VDict x)) = Return tt) ->
  all_have keys good = true ->
  outcome (body bad) = Raise e ->
  for_each (good ++ bad :: rest) body
  = ((flat_map block good ++ stdout (body bad))%list, Raise e).
Proof.
  intros Hemits Hret Hgood Hbad.
  induction good as [| x good' IH]; cbn [app for_each flat_map].
  - now rewrite (bind_raises _ _ e Hbad).
  - cbn [all_have forallb] in Hgood. apply andb_true_iff in Hgood.
    destruct Hgood as [Hx Hgood']. fold (all_have keys good') in Hgood'.
    destruct x as [| b | z | f | s | items | ex]; try discriminate Hx.
    pose proof (Hret ex Hx) as Hok.
    rewrite (bind_returns _ _ tt Hok), (Hemits _ Hok), (IH Hgood').
    unfold stdout, outcome. simpl. now rewrite app_assoc.
Qed.

Lemma section_stops d header key (body : value -> M unit)
  (block : value -> list string) (keys : list string)
  (good : list value) (bad : value) (rest : list value) (e : exn) :
  (forall x, emits (body x) (block x)) ->
  (forall x, has_keys keys x = true -> outcome (body (VDict x)) = Return tt) ->
  lookup key d = Some (VList (good ++ bad :: rest)) ->
  all_have keys good = true ->
  outcome (body bad) = Raise e ->
  if_ (getitem (VDict d) key)
    (print header ;;
     lista <- getitem (VDict d) key ;;
     items <- iter lista ;;
     for_each items body)
  = ((header :: flat_map block good ++ stdout (body bad))%list, Raise e).
Proof.
  intros Hemits Hret Hlist Hgood Hbad.
  assert (Hget : getitem (VDict d) key = ret (VList (good ++ bad :: rest)))
    by (unfold getitem; now rewrite Hlist).
  unfold if_. rewrite Hget, bind_ret.
  replace (truthy (VList (good ++ bad :: rest))) with true
    by (destruct good; reflexivity).
  rewrite bind_print, bind_ret. cbn [iter]. rewrite bind_ret.
  now rewrite (for_each_stops body block keys good bad rest e).
Qed.

(** X11. A loop stops at its first failing entry.  If the entries of
    'lista_cnae_secundarios' (of 'lista_qsa') up to some entry are
    objects with all their keys and that entry makes the loop body raise,
    the section prints its header, the full blocks of the entries before
    it and what the failing entry printed before failing, and ends with
    that exception; the entries after it are not looked at. *)
Theorem sections_stop_at_first_bad_entry (d : list (string * value))
  (good : list value) (bad : value) (rest : list value) (e : exn) :
  (lookup "lista_cnae_secundarios" d = Some (VList (good ++ bad :: rest)) ->
   all_have cnae_keys good = true ->
   outcome (cnae_entry repr_other bad) = Raise e ->
   secondary_activities repr_other (VDict d)
   = ((secondary_header :: flat_map (cnae_lines repr_other) good
         ++ stdout (cnae_entry repr_other bad))%list, Raise e))
  /\ (lookup "lista_qsa" d = Some (VList (good ++ bad :: rest)) ->
      all_have socio_keys good = true ->
      outcome (socio_entry repr_other bad) = Raise e ->
      ownership repr_other (VDict d)
      = (((nl ++ "Quadro Societário:")%string
          :: flat_map (socio_block repr_other) good
          ++ stdout (socio_entry repr_other bad))%list, Raise e)).
Proof.
  split; intros Hlist Hgood Hbad.
  - apply (section_stops d secondary_header "lista_cnae_secundarios"
             (cnae_entry repr_other) (cnae_lines repr_other) cnae_keys
             good bad rest e);
      auto using emits_cnae_entry, returns_cnae_entry.
  - apply (section_stops d (nl ++ "Quadro Societário:") "lista_qsa"
             (socio_entry repr_other) (socio_block repr_other) socio_keys
             good bad rest e);
      auto using emits_socio_entry, returns_socio_entry.
Qed.

Lemma section_not_a_list d header key (body : value -> M unit) (v : value) :
  (forall s, exists msg, body (VStr s) = raise (type_error msg)) ->
  lookup key d = Some v ->
  truthy v = true ->
  (forall items, v <> VList items) ->
  exists msg,
    if_ (getitem (VDict d) key)
      (print header ;;
       lista <- getitem (VDict d) key ;;
       items <- iter lista ;;
       for_each items body)
    = ([header], Raise (type_error msg)).
Proof.
  intros Hstr Hv T Hnot.
  assert (Hget : getitem (VDict d) key = ret v)
    by (unfold getitem; now rewrite Hv).
  unfold if_. rewrite Hget, bind_ret, T, bind_print, bind_ret.
  destruct v as [| b | z | f | s | items | entries];
    try discriminate T;
    try (eexists; reflexivity).
  - destruct s as [| c s]; [discriminate T |].
    cbn [iter]. rewrite bind_ret.
    pose proof (chars_nonempty c s) as Hne.
    destruct (chars (String c s)) as [| c0 cs]; [contradiction |].
    cbn [map for_each]. destruct (Hstr c0) as [msg ->].
    exists msg. reflexivity.
  - exfalso. exact (Hnot items eq_refl).
  - destruct entries as [| [k0 v0] more]; [discriminate T |].
    cbn [iter]. rewrite bind_ret. cbn [map for_each fst].
    destruct (Hstr k0) as [msg ->]. exists msg. reflexivity.
Qed.

(** X12. When 'lista_cnae_secundarios' (or 'lista_qsa') holds a true
    value that is not a list (a non-empty string or object, a number,
    [true]), the section prints its header and then raises [TypeError]:
    the value cannot be iterated, or its elements (characters, keys)
    cannot be subscripted with a field name. *)
Theorem repeated_section_not_a_list (d : list (string * value)) (v : value) :
  truthy v = true ->
  (forall items, v <> VList items) ->
  (lookup "lista_cnae_secundarios" d = Some v ->
   exists msg,
     secondary_activities repr_other (VDict d)
     = ([secondary_header], Raise (type_error msg)))
  /\ (lookup "lista_qsa" d = Some v ->
      exists msg,
        ownership repr_other (VDict d)
        = ([(nl ++ "Quadro Societário:")%string], Raise (type_error msg))).
Proof.
  intros T Hnot. split; intros Hv.
  - apply (section_not_a_list d secondary_header "lista_cnae_secundarios"
             (cnae_entry repr_other) v); auto.
    intros s. eexists. reflexivity.
  - apply (section_not_a_list d (nl ++ "Quadro Societário:") "lista_qsa"
             (socio_entry repr_other) v); auto.
    intros s. eexists. reflexivity.
Qed.

End Loops.

Lemma repeated_section_not_a_list_witness :
  exists msg,
    secondary_activities Samples.no_repr
      (VDict [("lista_cnae_secundarios", VStr "6202300")])
    = ([secondary_header], Raise (type_error msg)).
Proof.
  apply (proj1 (repeated_section_not_a_list Samples.no_repr
                  [("lista_cnae_secundarios", VStr "6202300")]
                  (VStr "6202300") eq_refl
                  ltac:(intros items; discriminate))).
  reflexivity.
Defined.

Lemma sections_stop_at_first_bad_entry_witness :
  ownership Samples.no_repr
    (VDict (Samples.company Samples.no_numbers []
              [Samples.socio_with_age; Samples.socio_without_age_key;
               Samples.socio_with_age]))
  = (((nl ++ "Quadro Societário:")%string
      :: socio_block Samples.no_repr Samples.socio_with_age
      ++ socio_lines Samples.no_repr (VStr "MARIA DA SILVA")
           (VStr "Pessoa Física") (VStr "***.123.456-**")
           (VStr "Sócio-Administrador") (VStr "2021-06-01"))%list,
     Raise (key_error age_bracket_key)).
Proof.
  apply (proj2 (sections_stop_at_first_bad_entry Samples.no_repr
                  (Samples.company Samples.no_numbers []
                     [Samples.socio_with_age; Samples.socio_without_age_key;
                      Samples.socio_with_age])
                  [Samples.socio_with_age] Samples.socio_without_age_key
                  [Samples.socio_with_age] (key_error age_bracket_key)));
    reflexivity.
Defined.


Section Agreement.
Variable repr_other : value -> string.
Variables d1 d2 : list (string * value).

Lemma getitem_agree k :
  lookup k d1 = lookup k d2 -> getitem (VDict d1) k = getitem (VDict d2) k.
Proof. intros H. unfold getitem. now rewrite H. Qed.

Lemma print_field_agree label k :
  lookup k d1 = lookup k d2 ->
  print_field repr_other label (VDict d1) k
  = print_field repr_other label (VDict d2) k.
Proof. intros H. unfold print_field. now rewrite (getitem_agree k H). Qed.

Lemma contact_pair_agree area_label area number_label number :
  lookup area d1 = lookup area d2 ->
  lookup number d1 = lookup number d2 ->
  contact_pair repr_other (VDict d1) area_label area number_label number
  = contact_pair repr_other (VDict d2) area_label area number_label number.
Proof.
  intros Ha Hn. rewrite !contact_pair_cases. now rewrite Ha, Hn.
Qed.

(** X17. [format_cnpj_info] depends on the mapping only through the
    thirty keys it reads: two mappings that agree on them are formatted
    alike, same lines and same end.  Fields the API adds, and the order
    of the fields in the object, change nothing. *)
Theorem format_cnpj_info_reads_only_its_keys :
  (forall k, In k top_level_keys -> lookup k d1 = lookup k d2) ->
  format_cnpj_info repr_other (VDict d1)
  = format_cnpj_info repr_other (VDict d2).
Proof.
  intros Hagree.
  assert (Hkey : forall k, existsb (String.eqb k) top_level_keys = true ->
                           lookup k d1 = lookup k d2).
  { intros k Hk. apply Hagree. apply existsb_exists in Hk.
    destruct Hk as (k' & Hin & Heq). apply String.eqb_eq in Heq. now subst. }
  unfold format_cnpj_info, basic_info, address, contact, primary_activity,
    secondary_activities, ownership.
  repeat match goal with
    | |- context [print_field repr_other ?l (VDict d1) ?k] =>
        rewrite (print_field_agree l k (Hkey k eq_refl))
    | |- context [contact_pair repr_other (VDict d1) ?al ?a ?nl ?n] =>
        rewrite (contact_pair_agree al a nl n (Hkey a eq_refl)
                   (Hkey n eq_refl))
    | |- context [getitem (VDict d1) ?k] =>
        rewrite (getitem_agree k (Hkey k eq_refl))
    end.
  reflexivity.
Qed.

End Agreement.

Lemma format_cnpj_info_reads_only_its_keys_witness :
  format_cnpj_info Samples.no_repr
    (VDict (("campo_novo", VStr "x")
            :: Samples.company Samples.one_phone [] []))
  = format_cnpj_info Samples.no_repr
      (VDict (Samples.company Samples.one_phone [] [])).
Proof.
  apply (format_cnpj_info_reads_only_its_keys Samples.no_repr).
  intros k Hk. cbn [lookup].
  destruct (String.eqb k "campo_novo") eqn:E; [| reflexivity].
  apply String.eqb_eq in E. subst k. exfalso.
  revert Hk. unfold top_level_keys, unconditional_keys. simpl.
  intuition discriminate.
Defined.

End FormatterOutput.

(** * The report of [cpf.py] *)
Module CpfMore.
Import Py Http Eff Requests EffFacts FormatterProps FormatterMore
  FormatterOutput.

(** The ten fields [main] prints, in order: label and key. *)
Definition cpf_fields : list (string * string) :=
  [("CPF: ", "cpf");
   ("Nome: ", "nome");
   ("Data de Nascimento: ", "data_nascimento");
   ("Situação: ", "situacao");
   ("Data de Inscrição: ", "data_inscricao");
   ("Dígito Verificador: ", "digito_verificador");
   ("Código de Controle: ", "codigo_controle");
   ("Data de Emissão: ", "data_emissao");
   ("Hora de Emissão: ", "hora_emissao");
   ("QR Code URL: ", "qrcode_url")].

Definition cpf_header : string := nl ++ "Resultado da consulta CPF:".

(** The first of [keys] that [d] lacks. *)
Fixpoint first_missing (d : list (string * value)) (keys : list string)
  : option string :=
  match keys with
  | [] => None
  | k :: rest =>
      match lookup k d with
      | Some _ => first_missing d rest
      | None => Some k
      end
  end.

(** The lines of the fields that come before the first missing one. *)
Fixpoint printed_fields (repr_other : value -> string)
  (d : list (string * value)) (fields : list (string * string))
  : list string :=
  match fields with
  | [] => []
  | (label, k) :: rest =>
      match lookup k d with
      | Some v =>
          (label ++ py_str repr_other v)%string
          :: printed_fields repr_other d rest
      | None => []
      end
  end.

(** A sample answer of the CPF endpoint, and the same without
    'situacao'. *)
Definition pessoa_head : list (string * value) :=
  [("cpf", VStr "871.357.400-09");
   ("nome", VStr "MARIA DA SILVA");
   ("data_nascimento", VStr "1990-01-01")].

Definition pessoa_tail : list (string * value) :=
  [("data_inscricao", VStr "2005-03-10");
   ("digito_verificador", VStr "09");
   ("codigo_controle", VStr "A1B2.C3D4.E5F6.G7H8");
   ("data_emissao", VStr "2024-01-15");
   ("hora_emissao", VStr "10:30:00");
   ("qrcode_url", VStr "https://consultar.io/qr/abc")].


Definition pessoa_sem_situacao : list (string * value) :=
  (pessoa_head ++ pessoa_tail)%list.

Definition answer (d : list (string * value)) : Response :=
  {| status_code := 200;
     reason := "OK";
     url := "https://consultar.io/api/v1/cpf/consultar";
     text := "{...}";
     json := inr (VDict d) |}.

Section Report.
Variable repr_other : value -> string.

Lemma cpf_print_field label v k :
  Cpf.print_field repr_other label v k
  = Cnpj.print_field repr_other label v k.
Proof. reflexivity. Qed.

Lemma bind_ret_tt (m : M unit) : (m ;; ret tt) = m.
Proof.
  destruct m as [out [[] | e]]; simpl; [| reflexivity].
  now rewrite app_nil_r.
Qed.

Lemma for_each_fields d (fields : list (string * string)) :
  for_each fields
    (fun field => Cnpj.print_field repr_other (fst field) (VDict d)
                    (snd field))
  = (printed_fields repr_other d fields,
     match first_missing d (map snd fields) with
     | None => Return tt
     | Some k => Raise (key_error k)
     end).
Proof.
  induction fields as [| [label k] rest IH]; [reflexivity |].
  cbn [for_each printed_fields first_missing map fst snd].
  destruct (lookup k d) as [v |] eqn:E.
  - rewrite (print_field_present _ _ _ _ _ E), IH. reflexivity.
  - now rewrite (print_field_missing _ _ _ _ E).
Qed.

(** What [main] does once the lookup has returned [resultado]. *)
Lemma cpf_main_after_lookup (get : transport) (r : Response)
  (resultado : value) :
  get ClientMore.cpf_main_request = inr r ->
  status_code r < 400 \/ 600 <= status_code r ->
  json r = inr resultado ->
  Cpf.main get repr_other
  = (print cpf_header ;;
     for_each cpf_fields
       (fun field => Cnpj.print_field repr_other (fst field) resultado
                       (snd field))).
Proof.
  intros Hget Hs Hjson. unfold Cpf.main.
  rewrite ClientMore.cpf_main_call. unfold Cpf.consultar.
  fold ClientMore.cpf_main_request. rewrite Hget.
  rewrite ClientProps.guarded_request_quiet by exact Hs.
  rewrite Hjson, bind_ret, !cpf_print_field.
  rewrite main_handlers_pass.
  - cbn [for_each cpf_fields fst snd]. now rewrite bind_ret_tt.
  - repeat first
      [ apply raises_only_print
      | apply print_field_raises
      | apply raises_only_bind; [| intros ?] ].
Qed.


(** X14. When the lookup succeeds with an object that lacks one of the
    ten fields, [main] prints the header and the lines of the fields
    before the first missing one, and ends with the [KeyError] of that
    field: its handlers do not catch it, no 'Erro:' line is printed. *)
Theorem cpf_main_missing_field (get : transport) (r : Response)
  (d : list (string * value)) (k : string) :
  get ClientMore.cpf_main_request = inr r ->
  status_code r < 400 \/ 600 <= status_code r ->
  json r = inr (VDict d) ->
  first_missing d (map snd cpf_fields) = Some k ->
  lookup k d = None
  /\ Cpf.main get repr_other
     = (cpf_header :: printed_fields repr_other d cpf_fields,
        Raise (key_error k)).
Proof.
  intros Hget Hs Hjson Hk. split.
  - revert Hk. generalize (map snd cpf_fields).
    induction l as [| k0 rest IH]; cbn [first_missing]; [discriminate |].
    destruct (lookup k0 d) eqn:E; [exact IH |].
    intros [= <-]. exact E.
  - rewrite (cpf_main_after_lookup get r (VDict d) Hget Hs Hjson).
    rewrite bind_print, for_each_fields, Hk. reflexivity.
Qed.

End Report.


Lemma cpf_main_missing_field_witness :
  Cpf.main (Samples.always (answer pessoa_sem_situacao)) Samples.no_repr
  = ([cpf_header; "CPF: 871.357.400-09"; "Nome: MARIA DA SILVA";
      "Data de Nascimento: 1990-01-01"],
     Raise (key_error "situacao")).
Proof.
  apply (proj2 (cpf_main_missing_field Samples.no_repr
                  (Samples.always (answer pessoa_sem_situacao))
                  (answer pessoa_sem_situacao) pessoa_sem_situacao "situacao"
                  eq_refl ltac:(left; simpl; lia) eq_refl eq_refl)).
Defined.

End CpfMore.
